(** * DevOps Social API: a model of [backend/main.py]

    The service is a FastAPI application with four routes and a startup
    hook, backed by one PostgreSQL table reached through psycopg2.  The
    handlers are embedded as computations in a small state-and-exception
    monad over a [world] that holds the database and the connection
    bookkeeping; the SQL statements are embedded as operations on the table,
    one per statement text of the source. *)

From Stdlib Require Import String Ascii ZArith List Bool Arith Lia.
From Stdlib Require Import Sorting.Permutation Sorting.Sorted.
From Stdlib Require Import DecimalString.
Import ListNotations.

Local Open Scope string_scope.
Local Open Scope Z_scope.

(* ===================================================================== *)
(** * Text *)
(* ===================================================================== *)

(** A Python [str] is carried as the UTF-8 text psycopg2 sends to the
    server.  PostgreSQL counts the length of a [VARCHAR] in characters:
    every byte that is not a continuation byte (10xxxxxx) starts one. *)
Module Text.

Definition is_continuation (c : ascii) : bool :=
  let n := nat_of_ascii c in (128 <=? n)%nat && (n <=? 191)%nat.

Fixpoint char_length (s : string) : nat :=
  match s with
  | EmptyString => O
  | String c rest =>
      if is_continuation c then char_length rest else S (char_length rest)
  end.

(** [clip n s]: the first [n] characters of [s] and what follows them,
    cut on a character boundary. *)
Fixpoint clip (n : nat) (s : string) : string * string :=
  match s with
  | EmptyString => (EmptyString, EmptyString)
  | String c rest =>
      if is_continuation c
      then let (kept, excess) := clip n rest in (String c kept, excess)
      else
        match n with
        | O => (EmptyString, s)
        | S m => let (kept, excess) := clip m rest in (String c kept, excess)
        end
  end.

Fixpoint all_spaces (s : string) : bool :=
  match s with
  | EmptyString => true
  | String c rest => Ascii.eqb c " "%char && all_spaces rest
  end.

Fixpoint contains_nul (s : string) : bool :=
  match s with
  | EmptyString => false
  | String c rest => Ascii.eqb c zero || contains_nul rest
  end.

Fixpoint replicate (n : nat) (c : ascii) : string :=
  match n with
  | O => EmptyString
  | S m => String c (replicate m c)
  end.

(** Decimal rendering of a natural number, zero-padded on the left to
    [width] digits: Python's ["%0<width>d"]. *)
Definition decimal (n : nat) : string :=
  NilEmpty.string_of_uint (Nat.to_uint n).

Definition zero_padded (width n : nat) : string :=
  let d := decimal n in
  replicate (width - String.length d) "0"%char ++ d.

End Text.

(* ===================================================================== *)
(** * JSON values: request bodies and response bodies *)
(* ===================================================================== *)

#[local] Unset Elimination Schemes.
Inductive json : Type :=
| JNull
| JBool (b : bool)
| JNum (n : Z)
| JStr (s : string)
| JArr (items : list json)
| JObj (fields : list (string * json)).
#[local] Set Elimination Schemes.

(** Key lookup in a parsed object (a Python dict: keys are unique). *)
Fixpoint lookup (key : string) (fields : list (string * json)) : option json :=
  match fields with
  | [] => None
  | (k, v) :: rest => if String.eqb k key then Some v else lookup key rest
  end.

(* ===================================================================== *)
(** * Timestamps *)
(* ===================================================================== *)

(** A [TIMESTAMP] value as the server stores it and as psycopg2 reads it
    from a result: the year of the common era, the date and the time of
    day.  The server holds years far beyond 9999. *)
Record timestamp : Type := mkTimestamp {
  year : nat; month : nat; day : nat;
  hour : nat; minute : nat; second : nat; microsecond : nat
}.

Module Datetime.

Definition fields (d : timestamp) : list nat :=
  [year d; month d; day d; hour d; minute d; second d; microsecond d].

(** Chronological order is the lexicographic order of the fields. *)
Fixpoint lex_leb (a b : list nat) : bool :=
  match a, b with
  | [], _ => true
  | _ :: _, [] => false
  | x :: a', y :: b' =>
      if (x <? y)%nat then true
      else if (y <? x)%nat then false
      else lex_leb a' b'
  end.

Definition leb (a b : timestamp) : bool := lex_leb (fields a) (fields b).

Definition within (lo hi : Z) (n : nat) : bool :=
  (lo <=? Z.of_nat n) && (Z.of_nat n <=? hi).

Definition is_leap (y : nat) : bool :=
  ((y mod 4 =? 0)%nat && negb (y mod 100 =? 0)%nat) || (y mod 400 =? 0)%nat.

Definition days_in_month (y m : nat) : nat :=
  match m with
  | 2 => if is_leap y then 29 else 28
  | 4 | 6 | 9 | 11 => 30
  | _ => 31
  end%nat.

(** What the constructor [datetime.datetime(year, month, day, hour, minute,
    second, microsecond)] accepts; it raises [ValueError] for anything
    else, a year after 9999 in particular. *)
Definition valid (d : timestamp) : bool :=
  within 1 9999 (year d) && within 1 12 (month d)
  && within 1 (Z.of_nat (days_in_month (year d) (month d))) (day d)
  && within 0 23 (hour d) && within 0 59 (minute d)
  && within 0 59 (second d) && within 0 999999 (microsecond d).

(** [str] of the [datetime] with the fields of [d]: ISO format with a
    space separator; the fraction is printed only when the microsecond
    field is not zero. *)
Definition str (d : timestamp) : string :=
  Text.zero_padded 4 (year d) ++ "-" ++ Text.zero_padded 2 (month d) ++ "-"
    ++ Text.zero_padded 2 (day d) ++ " "
    ++ Text.zero_padded 2 (hour d) ++ ":" ++ Text.zero_padded 2 (minute d)
    ++ ":" ++ Text.zero_padded 2 (second d)
    ++ (if (microsecond d =? 0)%nat then ""
        else "." ++ Text.zero_padded 6 (microsecond d)).

End Datetime.

(** A [datetime.datetime]: a timestamp the constructor accepts.  The
    readings of the database clock are of this kind: a running clock
    stands between the years 1 and 9999. *)
Record datetime : Type := mkDatetime_of {
  timestamp_of : timestamp;
  datetime_valid : Datetime.valid timestamp_of = true
}.

Coercion timestamp_of : datetime >-> timestamp.

Abbreviation mkDatetime y mo d h mi s us :=
  (mkDatetime_of (mkTimestamp y mo d h mi s us) eq_refl).

(* ===================================================================== *)
(** * The posts table and its statements *)
(* ===================================================================== *)

(** One stored post, with the four columns of the [CREATE TABLE] statement
    of [startup] as the service itself fills them. *)
Record row : Type := mkRow {
  row_id : Z;
  row_username : string;
  row_content : string;
  row_created_at : timestamp
}.

(** The table together with the sequence behind its [SERIAL] column;
    [tbl_seq] is the last value the sequence handed out. *)
Record table : Type := mkTable {
  tbl_rows : list row;
  tbl_seq : Z
}.

(** [username VARCHAR(100)] *)
Definition varchar_limit : nat := 100%nat.

(** [id SERIAL]: a 32-bit column fed by a sequence that stops at its
    largest value. *)
Definition serial_max : Z := 2147483647.

(** [LIMIT 50] *)
Definition listing_limit : nat := 50%nat.

Inductive exn : Type :=
| OperationalError            (* psycopg2.connect: server unreachable *)
| UndefinedTable              (* relation "posts" does not exist *)
| StringDataRightTruncation   (* value too long for type character varying(100) *)
| SequenceLimitExceeded       (* nextval: reached maximum value of sequence *)
| UniqueViolation             (* duplicate key value violates posts_pkey *)
| ValueError.                 (* a NUL in a parameter; a timestamp no datetime holds *)

Module Sql.

(** Assignment of a text value to a [VARCHAR(n)] column, as PostgreSQL
    defines it for its character types: a value of at most [n] characters
    is stored as it is; a longer one is an error, unless everything after
    the first [n] characters is spaces, in which case it is stored cut to
    [n] characters (the rule of the SQL standard). *)
Definition varchar_assign (n : nat) (s : string) : option string :=
  let (kept, excess) := Text.clip n s in
  if Text.all_spaces excess then Some kept else None.

(** [CREATE TABLE IF NOT EXISTS posts (...)]: a new table is empty and its
    sequence has handed out nothing yet. *)
Definition create_table_if_not_exists (v : option table) : option table :=
  match v with
  | Some t => Some t
  | None => Some (mkTable [] 0)
  end.

(** [ORDER BY created_at DESC] as an insertion sort.  Rows with equal
    timestamps keep their table order (PostgreSQL leaves the order of
    ties open; no theorem below depends on it). *)
Fixpoint insert_desc (r : row) (sorted : list row) : list row :=
  match sorted with
  | [] => [r]
  | b :: rest =>
      if Datetime.leb (row_created_at b) (row_created_at r)
      then r :: b :: rest
      else b :: insert_desc r rest
  end.

Fixpoint order_by_created_at_desc (rows : list row) : list row :=
  match rows with
  | [] => []
  | r :: rest => insert_desc r (order_by_created_at_desc rest)
  end.

(** [SELECT id, username, content, created_at FROM posts
     ORDER BY created_at DESC LIMIT 50] *)
Definition select_posts (t : table) : list row :=
  firstn listing_limit (order_by_created_at_desc (tbl_rows t)).

(** [SELECT COUNT( * ) FROM posts] *)
Definition select_count (t : table) : Z :=
  Z.of_nat (length (tbl_rows t)).

Definition has_id (id : Z) (rows : list row) : bool :=
  existsb (fun r => row_id r =? id) rows.

Inductive insert_result : Type :=
| Inserted (id : Z) (t' : table)
| Rejected (e : exn) (t' : table).

(** [INSERT INTO posts (username, content) VALUES (%s, %s) RETURNING id].
    The username is cast to the column type when the statement is
    planned; then the defaults are computed, [id] from the sequence and
    [created_at] from the server clock [now]; last the primary key is
    checked.  A value the sequence handed out is not given back when the
    key check fails. *)
Definition insert_post (now : timestamp) (u c : string) (t : table)
  : insert_result :=
  match varchar_assign varchar_limit u with
  | None => Rejected StringDataRightTruncation t
  | Some stored =>
      if serial_max <=? tbl_seq t then Rejected SequenceLimitExceeded t
      else
        let id := tbl_seq t + 1 in
        if has_id id (tbl_rows t)
        then Rejected UniqueViolation (mkTable (tbl_rows t) id)
        else Inserted id (mkTable (tbl_rows t ++ [mkRow id stored c now]) id)
  end.

End Sql.

(* ===================================================================== *)
(** * The world and the handler monad *)
(* ===================================================================== *)

(** What the service acts on: the database server (reachable or not, the
    committed [posts] table if it exists) and the count of connections
    opened and closed so far. *)
Record world : Type := mkWorld {
  db_reachable : bool;
  db_posts : option table;
  conns_opened : nat;
  conns_closed : nat
}.

Definition open_connections (w : world) : nat :=
  (conns_opened w - conns_closed w)%nat.

Inductive outcome (A : Type) : Type :=
| Ok (a : A)
| Raise (e : exn).
Arguments Ok {A} a.
Arguments Raise {A} e.

(** A computation runs on a world and ends in a value or in an exception;
    either way the world it leaves behind is kept. *)
Definition M (A : Type) : Type := world -> outcome A * world.

Definition ret {A : Type} (a : A) : M A := fun w => (Ok a, w).

Definition bind {A B : Type} (m : M A) (k : A -> M B) : M B :=
  fun w =>
    match m w with
    | (Ok a, w') => k a w'
    | (Raise e, w') => (Raise e, w')
    end.

Declare Scope handler_scope.
Delimit Scope handler_scope with handler.
Notation "x <- m ;; k" := (bind m (fun x => k))
  (at level 61, m at next level, right associativity) : handler_scope.
Notation "m ;; k" := (bind m (fun _ => k))
  (at level 61, right associativity) : handler_scope.
Local Open Scope handler_scope.

(** A psycopg2 connection: the table as its transaction sees it, that is
    the committed table with the transaction's own writes. *)
Record connection : Type := mkConn {
  conn_view : option table
}.

(** [psycopg2.connect(...)] *)
Definition get_db : M connection :=
  fun w =>
    if db_reachable w
    then (Ok (mkConn (db_posts w)),
          mkWorld (db_reachable w) (db_posts w) (S (conns_opened w)) (conns_closed w))
    else (Raise OperationalError, w).

(** [conn.commit()]: the transaction's view becomes the committed table. *)
Definition commit (conn : connection) : M unit :=
  fun w =>
    (Ok tt, mkWorld (db_reachable w) (conn_view conn) (conns_opened w) (conns_closed w)).

(** [conn.close()]: writes that were not committed are dropped. *)
Definition close (conn : connection) : M unit :=
  fun w =>
    (Ok tt, mkWorld (db_reachable w) (db_posts w) (conns_opened w) (S (conns_closed w))).

(** The sequence is not transactional: its advance reaches the committed
    table at once. *)
Definition advance_sequence (seq : Z) : M unit :=
  fun w =>
    (Ok tt,
     mkWorld (db_reachable w)
       (option_map (fun t => mkTable (tbl_rows t) seq) (db_posts w))
       (conns_opened w) (conns_closed w)).

(** [cur.execute("CREATE TABLE IF NOT EXISTS posts ...")] *)
Definition execute_create_table (conn : connection) : M connection :=
  ret (mkConn (Sql.create_table_if_not_exists (conn_view conn))).

(** [cur.fetchall()] on the rows of a result: psycopg2 builds a
    [datetime.datetime] from every [created_at] and raises [ValueError] at
    one the constructor does not accept. *)
Definition fetchall (result : list row) : M (list row) :=
  fun w =>
    if forallb (fun r => Datetime.valid (row_created_at r)) result
    then (Ok result, w)
    else (Raise ValueError, w).

(** [cur.execute("SELECT id, username, content, created_at ...")] followed
    by [cur.fetchall()] *)
Definition execute_select_posts (conn : connection) : M (list row) :=
  match conn_view conn with
  | None => fun w => (Raise UndefinedTable, w)
  | Some t => fetchall (Sql.select_posts t)
  end.

(** [cur.execute("SELECT COUNT( * ) FROM posts")] followed by
    [cur.fetchone()[0]] *)
Definition execute_select_count (conn : connection) : M Z :=
  match conn_view conn with
  | None => fun w => (Raise UndefinedTable, w)
  | Some t => ret (Sql.select_count t)
  end.

(** [cur.execute("INSERT INTO posts ... RETURNING id", (username, content))]
    followed by [cur.fetchone()[0]].  psycopg2 refuses a parameter with a
    NUL character before anything is sent. *)
Definition execute_insert_post (now : datetime) (u c : string)
    (conn : connection) : M (Z * connection) :=
  if Text.contains_nul u || Text.contains_nul c
  then fun w => (Raise ValueError, w)
  else
    match conn_view conn with
    | None => fun w => (Raise UndefinedTable, w)
    | Some t =>
        match Sql.insert_post now u c t with
        | Sql.Inserted id t' =>
            advance_sequence id ;;
            ret (id, mkConn (Some t'))
        | Sql.Rejected e t' =>
            advance_sequence (tbl_seq t') ;;
            fun w => (Raise e, w)
        end
    end.

(* ===================================================================== *)
(** * The application *)
(* ===================================================================== *)

(** The handlers follow the source statement by statement.  A cursor
    ([conn.cursor()], [cur.close()]) is a client-side holder of the result
    of [execute]; its result is returned by the [execute_] operations
    directly, with the [fetchall] or [fetchone] that reads it. *)

(** [class Post(BaseModel)] *)
Record Post : Type := mkPost {
  username : string;
  content : string
}.

(** [@app.on_event("startup") def startup()] *)
Definition startup : M unit :=
  conn <- get_db ;;
  conn <- execute_create_table conn ;;
  commit conn ;;
  close conn.

(** [@app.get("/") def read_root()] *)
Definition read_root : json :=
  JObj [("message", JStr "🐳 DevOps Social API is live!")].

(** The dictionary appended to [posts] for one fetched row; [fetchall]
    has made a [datetime] of its [created_at]. *)
Definition render_post (r : row) : json :=
  JObj [("id", JNum (row_id r));
        ("username", JStr (row_username r));
        ("content", JStr (row_content r));
        ("created_at", JStr (Datetime.str (row_created_at r)))].

(** [@app.get("/posts") def get_posts()] *)
Definition get_posts : M json :=
  conn <- get_db ;;
  rows <- execute_select_posts conn ;;
  let posts := map render_post rows in
  close conn ;;
  ret (JObj [("posts", JArr posts)]).

(** [@app.post("/posts") def create_post(post: Post)]; [now] is the
    reading of the database clock when the statement runs. *)
Definition create_post (now : datetime) (post : Post) : M json :=
  conn <- get_db ;;
  inserted <- execute_insert_post now (username post) (content post) conn ;;
  let (post_id, conn) := inserted : Z * connection in
  commit conn ;;
  close conn ;;
  ret (JObj [("id", JNum post_id); ("message", JStr "Post created!")]).

(** [@app.get("/stats") def get_stats()] *)
Definition get_stats : M json :=
  conn <- get_db ;;
  count <- execute_select_count conn ;;
  close conn ;;
  ret (JObj [("total_posts", JNum count); ("docker_magic", JStr "🐳✨")]).

(* ===================================================================== *)
(** * Requests and responses *)
(* ===================================================================== *)

(** What the framework reports for one field of a request body. *)
Inductive field_error : Type :=
| Missing (field : string)        (* the key is absent *)
| StringType (field : string)     (* the value is not a string *)
| ModelType.                      (* the body is not an object *)

(** A field annotated [str] takes a JSON string and nothing else (pydantic
    2 does not turn a number into text). *)
Definition validate_str (field : string) (fields : list (string * json))
  : string + field_error :=
  match lookup field fields with
  | None => inr (Missing field)
  | Some (JStr s) => inl s
  | Some _ => inr (StringType field)
  end.

(** Validation of the body of [POST /posts] against [Post]; keys other
    than the two fields are ignored, and every failing field is reported. *)
Definition validate_Post (body : json) : Post + list field_error :=
  match body with
  | JObj fields =>
      match validate_str "username" fields, validate_str "content" fields with
      | inl u, inl c => inl (mkPost u c)
      | inr e, inl _ => inr [e]
      | inl _, inr e => inr [e]
      | inr e1, inr e2 => inr [e1; e2]
      end
  | _ => inr [ModelType]
  end.

Inductive request : Type :=
| GET_root
| GET_posts
| POST_posts (body : json)
| GET_stats.

Inductive response : Type :=
| Success (body : json)                       (* 200 *)
| ValidationError (errors : list field_error) (* 422 *)
| ServerError (e : exn).                      (* 500 *)

Definition status_code (r : response) : Z :=
  match r with
  | Success _ => 200
  | ValidationError _ => 422
  | ServerError _ => 500
  end.

(** A handler that returns answers 200 with its value; an exception that
    leaves it is answered 500. *)
Definition run_handler (h : M json) (w : world) : response * world :=
  match h w with
  | (Ok body, w') => (Success body, w')
  | (Raise e, w') => (ServerError e, w')
  end.

(** One request against the running service.  The body of [POST /posts]
    is validated before the handler is called. *)
Definition serve (now : datetime) (r : request) (w : world) : response * world :=
  match r with
  | GET_root => (Success read_root, w)
  | GET_posts => run_handler get_posts w
  | POST_posts body =>
      match validate_Post body with
      | inl post => run_handler (create_post now post) w
      | inr errors => (ValidationError errors, w)
      end
  | GET_stats => run_handler get_stats w
  end.

(** A history of requests, each with the clock reading it is served at. *)
Fixpoint run (history : list (datetime * request)) (w : world)
  : list response * world :=
  match history with
  | [] => ([], w)
  | (now, r) :: rest =>
      let (resp, w1) := serve now r w in
      let (resps, w2) := run rest w1 in
      (resp :: resps, w2)
  end.

(** The world after a connection was opened and left open. *)
Definition opened_one (w : world) : world :=
  mkWorld (db_reachable w) (db_posts w) (S (conns_opened w)) (conns_closed w).

(** The world after a connection was opened and closed, with [posts] as
    the committed table. *)
Definition opened_and_closed_one (posts : option table) (w : world) : world :=
  mkWorld (db_reachable w) posts (S (conns_opened w)) (S (conns_closed w)).

(** The world once the startup hook has run. *)
Definition boot (w : world) : world := snd (startup w).

(** A reachable server with no [posts] table yet. *)
Definition fresh_database : world := mkWorld true None 0 0.

Definition rows_of (w : world) : list row :=
  match db_posts w with
  | Some t => tbl_rows t
  | None => []
  end.

(** The body of a well-typed request. *)
Definition post_body (u c : string) : json :=
  JObj [("username", JStr u); ("content", JStr c)].

(** The responses that report a created post. *)
Definition is_created (req : request) (resp : response) : bool :=
  match req, resp with
  | POST_posts _, Success _ => true
  | _, _ => false
  end.

Fixpoint count_created (history : list (datetime * request))
    (resps : list response) : nat :=
  match history, resps with
  | (_, req) :: history', resp :: resps' =>
      ((if is_created req resp then 1 else 0) + count_created history' resps')%nat
  | _, _ => O
  end.

(** Every stored id was handed out by the sequence. *)
Definition ids_from_sequence (t : table) : Prop :=
  Forall (fun r => row_id r <= tbl_seq t) (tbl_rows t).

(** [a] is at least as recent as [b]. *)
Definition newer_or_equal (a b : row) : Prop :=
  Datetime.leb (row_created_at b) (row_created_at a) = true.

(* ===================================================================== *)
(** * Configuration *)
(* ===================================================================== *)

(** The process environment, [os.environ]. *)
Definition environment : Type := string -> option string.

(** [os.getenv(name, default)]: the default stands in only for a variable
    that is not set. *)
Definition getenv (name default : string) (env : environment) : string :=
  match env name with
  | Some value => value
  | None => default
  end.

Definition setenv (name value : string) (env : environment) : environment :=
  fun k => if String.eqb k name then Some value else env k.

(** The keyword arguments [get_db] passes to [psycopg2.connect]. *)
Record connect_args : Type := mkConnectArgs {
  host : string;
  database : string;
  user : string;
  password : string
}.

Definition get_db_args (env : environment) : connect_args :=
  mkConnectArgs (getenv "DB_HOST" "db" env)
                (getenv "DB_NAME" "devops_social" env)
                (getenv "DB_USER" "postgres" env)
                (getenv "DB_PASSWORD" "postgres" env).

Definition configures (name : string) : bool :=
  String.eqb name "DB_HOST" || String.eqb name "DB_NAME"
  || String.eqb name "DB_USER" || String.eqb name "DB_PASSWORD".

(* ===================================================================== *)
(** * Properties of states and answers *)
(* ===================================================================== *)

Definition older_id (a b : row) : Prop := row_id a < row_id b.

(** [a] was stamped before [b]. *)
Definition strictly_older (a b : row) : Prop :=
  Datetime.leb (row_created_at b) (row_created_at a) = false.

(** A table as the service builds it: ids grow along the table, come from
    the sequence, and every username fits its column. *)
Definition table_ok (t : table) : Prop :=
  StronglySorted older_id (tbl_rows t) /\
  Forall (fun r => 1 <= row_id r <= tbl_seq t /\
                   (Text.char_length (row_username r) <= varchar_limit)%nat)
         (tbl_rows t) /\
  0 <= tbl_seq t <= serial_max.

Definition database_ok (w : world) : Prop :=
  match db_posts w with
  | Some t => table_ok t
  | None => True
  end.

(** Every stored [created_at] is one a [datetime] holds. *)
Definition stamps_valid (w : world) : Prop :=
  Forall (fun r => Datetime.valid (row_created_at r) = true) (rows_of w).

(** The requests that run no [INSERT]. *)
Definition is_read (r : request) : bool :=
  match r with
  | POST_posts _ => false
  | _ => true
  end.

(** The answers of a handler that raised after it had connected. *)
Definition raised_after_connect (resp : response) : bool :=
  match resp with
  | ServerError OperationalError => false
  | ServerError _ => true
  | _ => false
  end.

(* ===================================================================== *)
(** * Worked examples *)
(* ===================================================================== *)

Example str_whole_second :
  Datetime.str (mkDatetime 2024 3 9 7 5 0 0) = "2024-03-09 07:05:00".
Proof. reflexivity. Qed.

Example str_fraction :
  Datetime.str (mkDatetime 2024 12 31 23 59 58 1500) = "2024-12-31 23:59:58.001500".
Proof. reflexivity. Qed.

Example char_length_counts_characters :
  Text.char_length "🐳✨" = 2%nat /\ String.length "🐳✨" = 7%nat.
Proof. split; reflexivity. Qed.

Example valid_is_the_range_of_datetime :
  Datetime.valid (mkTimestamp (100 * 100 - 1) 12 31 23 59 59 (1000 * 1000 - 1)) = true /\
  Datetime.valid (mkTimestamp (100 * 100) 1 1 0 0 0 0) = false /\
  Datetime.valid (mkTimestamp 2024 2 29 0 0 0 0) = true /\
  Datetime.valid (mkTimestamp 2023 2 29 0 0 0 0) = false.
Proof. repeat split; vm_compute; reflexivity. Qed.

Example clip_on_boundary :
  Text.clip 1 "🐳✨ " = ("🐳", "✨ ").
Proof. reflexivity. Qed.

(* ===================================================================== *)
(** * The order on timestamps *)
(* ===================================================================== *)

Lemma lex_leb_total (a b : list nat) :
  Datetime.lex_leb a b = true \/ Datetime.lex_leb b a = true.
Proof.
  revert b; induction a as [|x a IH]; intros [|y b]; simpl; auto.
  destruct (Nat.ltb_spec x y), (Nat.ltb_spec y x); auto; lia.
Qed.

Lemma lex_leb_trans (a b c : list nat) :
  Datetime.lex_leb a b = true -> Datetime.lex_leb b c = true ->
  Datetime.lex_leb a c = true.
Proof.
  revert b c; induction a as [|x a IH]; intros [|y b] [|z c]; simpl;
    try congruence.
  destruct (Nat.ltb_spec x y), (Nat.ltb_spec y x), (Nat.ltb_spec y z),
    (Nat.ltb_spec z y), (Nat.ltb_spec x z), (Nat.ltb_spec z x);
    try congruence; try lia.
  apply IH.
Qed.

Lemma leb_total (a b : timestamp) :
  Datetime.leb a b = true \/ Datetime.leb b a = true.
Proof. apply lex_leb_total. Qed.

Lemma leb_false_flip (a b : timestamp) :
  Datetime.leb a b = false -> Datetime.leb b a = true.
Proof. destruct (leb_total a b); congruence. Qed.

Lemma newer_or_equal_trans (a b c : row) :
  newer_or_equal a b -> newer_or_equal b c -> newer_or_equal a c.
Proof.
  unfold newer_or_equal, Datetime.leb; intros Hab Hbc.
  eapply lex_leb_trans; eassumption.
Qed.

(* ===================================================================== *)
(** * ORDER BY and LIMIT *)
(* ===================================================================== *)

Lemma insert_desc_perm (r : row) (l : list row) :
  Permutation (Sql.insert_desc r l) (r :: l).
Proof.
  induction l as [|b l IH]; simpl; [reflexivity|].
  destruct (Datetime.leb _ _); [reflexivity|].
  rewrite IH. apply perm_swap.
Qed.

Lemma order_by_perm (l : list row) :
  Permutation (Sql.order_by_created_at_desc l) l.
Proof.
  induction l as [|r l IH]; simpl; [reflexivity|].
  rewrite insert_desc_perm. now constructor.
Qed.

Lemma insert_desc_sorted (r : row) (l : list row) :
  StronglySorted newer_or_equal l ->
  StronglySorted newer_or_equal (Sql.insert_desc r l).
Proof.
  induction 1 as [|b l Hs IH Hb]; simpl.
  - repeat constructor.
  - destruct (Datetime.leb (row_created_at b) (row_created_at r)) eqn:E.
    + constructor; [now constructor|].
      constructor; [exact E|].
      eapply Forall_impl; [|exact Hb].
      intros c Hc. eapply newer_or_equal_trans; [exact E | exact Hc].
    + constructor; [exact IH|].
      eapply Permutation_Forall.
      * symmetry. apply insert_desc_perm.
      * constructor; [|exact Hb].
        now apply leb_false_flip.
Qed.

Lemma order_by_sorted (l : list row) :
  StronglySorted newer_or_equal (Sql.order_by_created_at_desc l).
Proof.
  induction l as [|r l IH]; simpl; [constructor|].
  now apply insert_desc_sorted.
Qed.

Lemma in_firstn (x : row) (n : nat) (l : list row) :
  In x (firstn n l) -> In x l.
Proof.
  revert n; induction l as [|a l IH]; intros [|n]; simpl; try tauto.
  intros [->|H]; [now left | right; eauto].
Qed.

Lemma firstn_sorted (n : nat) (l : list row) :
  StronglySorted newer_or_equal l ->
  StronglySorted newer_or_equal (firstn n l).
Proof.
  intros Hs; revert n; induction Hs as [|a l Hs IH Ha]; intros [|n]; simpl;
    try constructor; auto.
  rewrite Forall_forall in *. intros x Hx. apply Ha.
  eapply in_firstn. exact Hx.
Qed.

(* ===================================================================== *)
(** * What each handler does, case by case *)
(* ===================================================================== *)

Lemma startup_run (w : world) :
  startup w =
  if db_reachable w
  then (Ok tt,
        opened_and_closed_one (Sql.create_table_if_not_exists (db_posts w)) w)
  else (Raise OperationalError, w).
Proof.
  unfold startup, bind, get_db, execute_create_table, commit, close, ret.
  destruct (db_reachable w) eqn:R; simpl; [|reflexivity].
  unfold opened_and_closed_one; simpl. now rewrite R.
Qed.

Lemma get_posts_run (w : world) :
  get_posts w =
  if db_reachable w
  then match db_posts w with
       | Some t =>
           if forallb (fun r => Datetime.valid (row_created_at r))
                      (Sql.select_posts t)
           then
             (Ok (JObj [("posts", JArr (map render_post (Sql.select_posts t)))]),
              opened_and_closed_one (Some t) w)
           else (Raise ValueError, opened_one w)
       | None => (Raise UndefinedTable, opened_one w)
       end
  else (Raise OperationalError, w).
Proof.
  unfold get_posts, bind, get_db, execute_select_posts, fetchall, close, ret.
  destruct (db_reachable w) eqn:R; simpl; [|reflexivity].
  unfold opened_and_closed_one, opened_one.
  destruct (db_posts w) eqn:P; simpl; [|now rewrite R].
  destruct (forallb _ _); simpl; now rewrite ?R, ?P.
Qed.

Lemma get_stats_run (w : world) :
  get_stats w =
  if db_reachable w
  then match db_posts w with
       | Some t =>
           (Ok (JObj [("total_posts", JNum (Sql.select_count t));
                      ("docker_magic", JStr "🐳✨")]),
            opened_and_closed_one (Some t) w)
       | None => (Raise UndefinedTable, opened_one w)
       end
  else (Raise OperationalError, w).
Proof.
  unfold get_stats, bind, get_db, execute_select_count, close, ret.
  destruct (db_reachable w) eqn:R; simpl; [|reflexivity].
  unfold opened_and_closed_one, opened_one.
  destruct (db_posts w) eqn:P; simpl; now rewrite R.
Qed.

Lemma create_post_run (now : datetime) (post : Post) (w : world) :
  create_post now post w =
  if db_reachable w
  then
    if Text.contains_nul (username post) || Text.contains_nul (content post)
    then (Raise ValueError, opened_one w)
    else
      match db_posts w with
      | None => (Raise UndefinedTable, opened_one w)
      | Some t =>
          match Sql.insert_post now (username post) (content post) t with
          | Sql.Inserted id t' =>
              (Ok (JObj [("id", JNum id); ("message", JStr "Post created!")]),
               opened_and_closed_one (Some t') w)
          | Sql.Rejected e t' =>
              (Raise e,
               mkWorld (db_reachable w) (Some (mkTable (tbl_rows t) (tbl_seq t')))
                 (S (conns_opened w)) (conns_closed w))
          end
      end
  else (Raise OperationalError, w).
Proof.
  unfold create_post, bind, get_db, execute_insert_post.
  destruct (db_reachable w) eqn:R; simpl; [|reflexivity].
  unfold opened_and_closed_one, opened_one.
  destruct (Text.contains_nul (username post) || Text.contains_nul (content post));
    simpl; [now rewrite R|].
  destruct (db_posts w) eqn:P; simpl; [|now rewrite R].
  destruct (Sql.insert_post now (username post) (content post) t);
    unfold bind, advance_sequence, commit, close, ret; simpl;
    rewrite ?P, ?R; reflexivity.
Qed.

(* ===================================================================== *)
(** * GET /posts *)
(* ===================================================================== *)

Lemma forallb_false_witness {A : Type} (f : A -> bool) (l : list A) :
  forallb f l = false -> exists x, In x l /\ f x = false.
Proof.
  induction l as [|a l IH]; simpl; [discriminate|].
  destruct (f a) eqn:E; simpl.
  - intros H. destruct (IH H) as (x & Hin & Hx). exists x. auto.
  - intros _. exists a. auto.
Qed.

(** C1. In every world, [GET /posts] either fails with a server error,
    which happens only when the server is unreachable, when the table is
    missing, or when one of the rows to be listed carries a timestamp that
    Python's [datetime] does not hold (a year after 9999), or answers with
    at most 50 posts: the first 50 of the stored rows arranged by
    [created_at] from newest to oldest, each rendered as an object with the
    fields [id], [username], [content] and [created_at], the last one as a
    string. *)
Theorem C1_listing_newest_fifty (now : datetime) (w : world) :
  match fst (serve now GET_posts w) with
  | Success body =>
      exists t arranged,
        db_posts w = Some t /\
        Permutation arranged (tbl_rows t) /\
        StronglySorted newer_or_equal arranged /\
        let listed := firstn 50 arranged in
        (length listed <= 50)%nat /\
        StronglySorted newer_or_equal listed /\
        Forall (fun r => Datetime.valid (row_created_at r) = true) listed /\
        body =
          JObj [("posts",
                 JArr (map (fun r =>
                              JObj [("id", JNum (row_id r));
                                    ("username", JStr (row_username r));
                                    ("content", JStr (row_content r));
                                    ("created_at",
                                     JStr (Datetime.str (row_created_at r)))])
                           listed))]
  | ServerError e =>
      (db_reachable w = false /\ e = OperationalError) \/
      (db_posts w = None /\ e = UndefinedTable) \/
      (exists t r,
          db_posts w = Some t /\
          In r (Sql.select_posts t) /\
          Datetime.valid (row_created_at r) = false /\
          e = ValueError)
  | ValidationError _ => False
  end.
Proof.
  unfold serve, run_handler. rewrite get_posts_run.
  destruct (db_reachable w); cbn [fst]; [|now left].
  destruct (db_posts w) as [t|]; cbn [fst]; [|right; now left].
  destruct (forallb _ _) eqn:Hcast; cbn [fst].
  - exists t, (Sql.order_by_created_at_desc (tbl_rows t)).
    split; [reflexivity|].
    split; [apply order_by_perm|].
    split; [apply order_by_sorted|].
    split; [apply firstn_le_length|].
    split; [apply firstn_sorted, order_by_sorted|].
    split; [|reflexivity].
    rewrite forallb_forall in Hcast. apply Forall_forall. exact Hcast.
  - right; right.
    destruct (forallb_false_witness _ _ Hcast) as (r & Hin & Hr).
    exists t, r. auto.
Qed.

(* ===================================================================== *)
(** * VARCHAR(100) *)
(* ===================================================================== *)

Lemma clip_fits (n : nat) (s : string) :
  (Text.char_length s <= n)%nat -> Text.clip n s = (s, EmptyString).
Proof.
  revert n; induction s as [|c s IH]; intros n; simpl; [reflexivity|].
  destruct (Text.is_continuation c).
  - intros H. now rewrite (IH n H).
  - destruct n as [|m]; [lia|].
    intros H. rewrite (IH m); [reflexivity | lia].
Qed.

Lemma varchar_assign_fits (n : nat) (s : string) :
  (Text.char_length s <= n)%nat -> Sql.varchar_assign n s = Some s.
Proof.
  intros H. unfold Sql.varchar_assign. now rewrite (clip_fits n s H).
Qed.

Lemma varchar_assign_refuses_only_long (n : nat) (s : string) :
  Sql.varchar_assign n s = None -> (n < Text.char_length s)%nat.
Proof.
  unfold Sql.varchar_assign. intros H.
  destruct (Nat.le_gt_cases (Text.char_length s) n) as [Hle|Hgt]; [|exact Hgt].
  rewrite (clip_fits n s Hle) in H. discriminate H.
Qed.

(* ===================================================================== *)
(** * POST /posts *)
(* ===================================================================== *)

Lemma has_id_above_sequence (t : table) (id : Z) :
  ids_from_sequence t -> tbl_seq t < id -> Sql.has_id id (tbl_rows t) = false.
Proof.
  unfold ids_from_sequence, Sql.has_id. intros Hids Hlt.
  induction Hids as [|r rows Hr _ IH]; simpl; [reflexivity|].
  rewrite IH, orb_false_r. apply Z.eqb_neq. lia.
Qed.

Lemma insert_post_inserts (now : datetime) (u c stored : string) (t : table) :
  Sql.varchar_assign varchar_limit u = Some stored ->
  tbl_seq t < serial_max ->
  ids_from_sequence t ->
  Sql.insert_post now u c t =
  Sql.Inserted (tbl_seq t + 1)
    (mkTable (tbl_rows t ++ [mkRow (tbl_seq t + 1) stored c now]) (tbl_seq t + 1)).
Proof.
  intros Hfit Hseq Hids. unfold Sql.insert_post. rewrite Hfit.
  destruct (Z.leb_spec serial_max (tbl_seq t)); [lia|].
  rewrite has_id_above_sequence by (auto; lia). reflexivity.
Qed.

Lemma validate_post_body (u c : string) :
  validate_Post (post_body u c) = inl (mkPost u c).
Proof. reflexivity. Qed.

(** A row of a list arranged from newest to oldest is among its first [n]
    rows when at most [n] rows of the list are at least as recent as it. *)
Lemma in_firstn_of_sorted (x : row) (l : list row) (n : nat) :
  StronglySorted newer_or_equal l ->
  In x l ->
  (length (filter (fun r => Datetime.leb (row_created_at x) (row_created_at r)) l)
   <= n)%nat ->
  In x (firstn n l).
Proof.
  intros Hs; revert n; induction Hs as [|a l Hs IH Ha]; intros n Hin Hcount.
  - destruct Hin.
  - destruct Hin as [->|Hin].
    + simpl in Hcount.
      destruct (leb_total (row_created_at x) (row_created_at x)) as [E|E];
        rewrite E in Hcount; simpl in Hcount;
        (destruct n as [|n]; [lia | now left]).
    + rewrite Forall_forall in Ha. pose proof (Ha x Hin) as Hax.
      unfold newer_or_equal in Hax. simpl in Hcount. rewrite Hax in Hcount.
      simpl in Hcount. destruct n as [|n]; [lia|].
      right. apply IH; [exact Hin | lia].
Qed.

Lemma filter_length_perm (f : row -> bool) (l l' : list row) :
  Permutation l l' -> length (filter f l) = length (filter f l').
Proof.
  induction 1 as [| x l l' _ IH | x y l | l l' l'' _ IH1 _ IH2]; simpl.
  - reflexivity.
  - destruct (f x); simpl; congruence.
  - destruct (f x), (f y); reflexivity.
  - congruence.
Qed.

Lemma new_row_listed (new : row) (rows : list row) :
  (length (filter (fun r => Datetime.leb (row_created_at new) (row_created_at r))
             rows) < listing_limit)%nat ->
  In new (Sql.select_posts (mkTable (rows ++ [new]) (row_id new))).
Proof.
  intros Hcount. unfold Sql.select_posts; cbn [tbl_rows].
  apply in_firstn_of_sorted.
  - apply order_by_sorted.
  - eapply Permutation_in; [symmetry; apply order_by_perm|].
    apply in_or_app; right; now left.
  - rewrite (filter_length_perm _ _ _ (order_by_perm (rows ++ [new]))).
    rewrite filter_app, length_app. simpl.
    destruct (Datetime.leb _ _); simpl; lia.
Qed.

Lemma select_posts_valid (t : table) :
  Forall (fun r => Datetime.valid (row_created_at r) = true) (tbl_rows t) ->
  forallb (fun r => Datetime.valid (row_created_at r)) (Sql.select_posts t) = true.
Proof.
  intros Hvalid. apply forallb_forall. intros r Hin.
  rewrite Forall_forall in Hvalid. apply Hvalid.
  eapply Permutation_in; [apply order_by_perm|].
  eapply in_firstn. exact Hin.
Qed.

(** C2 (amended).  On a reachable server whose [posts] table exists, holds
    only ids handed out by its sequence and has not used the sequence up,
    a request whose two strings carry no NUL character and whose username
    fits [VARCHAR(100)] (as it is, or cut to [stored] when only spaces follow
    its first 100 characters) is answered with the new id; exactly one row
    is appended; the id is greater than every stored id; the table keeps
    holding only ids of its sequence; and the next listing shows the new
    post when fewer than 50 stored posts are at least as recent as it and
    every stored timestamp is one Python's [datetime] holds. *)
Theorem C2_create_post_appends_one_row
    (now later : datetime) (u c stored : string) (w : world) (t : table) :
  db_reachable w = true ->
  db_posts w = Some t ->
  ids_from_sequence t ->
  tbl_seq t < serial_max ->
  Text.contains_nul u = false ->
  Text.contains_nul c = false ->
  Sql.varchar_assign 100 u = Some stored ->
  let id := tbl_seq t + 1 in
  let new := mkRow id stored c now in
  let w' := snd (serve now (POST_posts (post_body u c)) w) in
  fst (serve now (POST_posts (post_body u c)) w) =
    Success (JObj [("id", JNum id); ("message", JStr "Post created!")]) /\
  db_posts w' = Some (mkTable (tbl_rows t ++ [new]) id) /\
  Forall (fun r => row_id r < id) (tbl_rows t) /\
  ids_from_sequence (mkTable (tbl_rows t ++ [new]) id) /\
  ((length (filter (fun r => Datetime.leb now (row_created_at r)) (tbl_rows t))
    < 50)%nat ->
   Forall (fun r => Datetime.valid (row_created_at r) = true) (tbl_rows t) ->
   exists posts,
     fst (serve later GET_posts w') = Success (JObj [("posts", JArr posts)]) /\
     In (JObj [("id", JNum id); ("username", JStr stored); ("content", JStr c);
               ("created_at", JStr (Datetime.str now))]) posts).
Proof.
  intros Hup Htable Hids Hseq Hnu Hnc Hfit id new w'.
  assert (Hrun : serve now (POST_posts (post_body u c)) w =
                 (Success (JObj [("id", JNum id); ("message", JStr "Post created!")]),
                  opened_and_closed_one
                    (Some (mkTable (tbl_rows t ++ [new]) id)) w)).
  { unfold serve. rewrite validate_post_body. unfold run_handler.
    rewrite create_post_run, Hup, Htable. cbn [username content].
    rewrite Hnu, Hnc. cbn [orb].
    rewrite (insert_post_inserts now u c stored t Hfit Hseq Hids).
    reflexivity. }
  subst w'. rewrite Hrun. cbn [fst snd].
  split; [reflexivity|].
  split; [reflexivity|].
  split.
  { eapply Forall_impl; [|exact Hids]. intros r Hr. cbv beta in Hr. unfold id. clear - Hr. lia. }
  split.
  { unfold ids_from_sequence; cbn [tbl_rows tbl_seq].
    apply Forall_app; split.
    - eapply Forall_impl; [|exact Hids]. intros r Hr. cbv beta in Hr. unfold id. clear - Hr. lia.
    - constructor; [|constructor]. cbn [row_id]. apply Z.le_refl. }
  intros Hcount Hvalid.
  unfold serve, run_handler. rewrite get_posts_run.
  cbn [opened_and_closed_one db_reachable db_posts]. rewrite Hup.
  rewrite select_posts_valid.
  2:{ cbn [tbl_rows]. apply Forall_app; split; [exact Hvalid|].
      constructor; [|constructor]. cbn [row_created_at]. apply datetime_valid. }
  eexists; split; [reflexivity|].
  change (In (render_post new)
            (map render_post
               (Sql.select_posts (mkTable (tbl_rows t ++ [new]) (row_id new))))).
  apply in_map, new_row_listed. exact Hcount.
Qed.

(** The amended C2 at work: a second post with empty strings, the same as
    the one already stored; the listing shows it. *)
Lemma C2_create_post_appends_one_row_witness :
  let t0 := mkDatetime 2024 5 17 9 30 0 0 in
  let t := mkTable [mkRow 1 "" "" t0] 1 in
  let w := mkWorld true (Some t) 2 2 in
  (db_reachable w = true /\ db_posts w = Some t /\ ids_from_sequence t /\
   tbl_seq t < serial_max /\ Text.contains_nul "" = false /\
   Sql.varchar_assign 100 "" = Some "") /\
  fst (serve t0 (POST_posts (post_body "" "")) w) =
    Success (JObj [("id", JNum 2); ("message", JStr "Post created!")]) /\
  exists posts,
    fst (serve t0 GET_posts (snd (serve t0 (POST_posts (post_body "" "")) w))) =
      Success (JObj [("posts", JArr posts)]) /\
    In (JObj [("id", JNum 2); ("username", JStr ""); ("content", JStr "");
              ("created_at", JStr (Datetime.str t0))]) posts.
Proof.
  intros t0 t w.
  assert (Hids : ids_from_sequence t).
  { unfold ids_from_sequence; simpl. constructor; [simpl; lia | constructor]. }
  assert (Hseq : tbl_seq t < serial_max) by reflexivity.
  split.
  - repeat split; try reflexivity; assumption.
  - destruct (C2_create_post_appends_one_row t0 t0 "" "" "" w t
                eq_refl eq_refl Hids Hseq eq_refl eq_refl eq_refl)
      as (Hresp & _ & _ & _ & Hlisted).
    split; [exact Hresp|].
    apply Hlisted.
    + vm_compute. lia.
    + repeat constructor.
Defined.

(** C2 as stated fails three times.  A username of 101 letters passes
    validation and is refused by the table, so no row is stored.  With 50
    posts stamped one second after it (the database clock was set back), a
    post is stored under id 51 and the listing that follows leaves it out.
    And in a table that holds a row stamped in the year 10000, a post is
    stored under id 2 and the listing that follows fails on the old row. *)
Lemma C2_counterexample :
  let t0 := mkDatetime 2024 5 17 9 30 0 0 in
  let t1 := mkDatetime 2024 5 17 9 30 1 0 in
  (validate_Post (post_body (Text.replicate 101 "a") "hello") =
     inl (mkPost (Text.replicate 101 "a") "hello") /\
   fst (serve t0 (POST_posts (post_body (Text.replicate 101 "a") "hello"))
          (boot fresh_database)) = ServerError StringDataRightTruncation /\
   rows_of (snd (serve t0 (POST_posts (post_body (Text.replicate 101 "a") "hello"))
                   (boot fresh_database))) = []) /\
  (let w50 := snd (run (repeat (t1, POST_posts (post_body "bob" "x")) 50)
                     (boot fresh_database)) in
   let w51 := snd (serve t0 (POST_posts (post_body "alice" "hello")) w50) in
   fst (serve t0 (POST_posts (post_body "alice" "hello")) w50) =
     Success (JObj [("id", JNum 51); ("message", JStr "Post created!")]) /\
   length (rows_of w51) = 51%nat /\
   exists posts,
     fst (serve t1 GET_posts w51) = Success (JObj [("posts", JArr posts)]) /\
     ~ In (render_post (mkRow 51 "alice" "hello" t0)) posts) /\
  (let far := mkTimestamp (100 * 100) 1 1 0 0 0 0 in
   let w := mkWorld true (Some (mkTable [mkRow 1 "old" "x" far] 1)) 0 0 in
   let w2 := snd (serve t0 (POST_posts (post_body "alice" "hello")) w) in
   fst (serve t0 (POST_posts (post_body "alice" "hello")) w) =
     Success (JObj [("id", JNum 2); ("message", JStr "Post created!")]) /\
   length (rows_of w2) = 2%nat /\
   fst (serve t1 GET_posts w2) = ServerError ValueError).
Proof.
  intros t0 t1. split; [|split].
  - repeat split; vm_compute; reflexivity.
  - intros w50 w51. split; [vm_compute; reflexivity|].
    split; [vm_compute; reflexivity|].
    eexists. split; [vm_compute; reflexivity|].
    intros H. simpl in H.
    repeat (destruct H as [H|H]; [discriminate H|]). exact H.
  - intros far w w2. repeat split; vm_compute; reflexivity.
Qed.

(* ===================================================================== *)
(** * Validation of the request body *)
(* ===================================================================== *)

(** C3. A body that lacks [username], lacks [content], or gives either of
    them a value that is not a string is answered 422 with an error for
    each such field; the handler is not called: the world, and with it the
    table and the count of opened connections, is what it was. *)
Theorem C3_invalid_body_rejected_before_storage
    (now : datetime) (fields : list (string * json)) (w : world) :
  lookup "username" fields = None \/
  lookup "content" fields = None \/
  (exists v, lookup "username" fields = Some v /\ forall s, v <> JStr s) \/
  (exists v, lookup "content" fields = Some v /\ forall s, v <> JStr s) ->
  exists errors,
    serve now (POST_posts (JObj fields)) w = (ValidationError errors, w) /\
    status_code (fst (serve now (POST_posts (JObj fields)) w)) = 422 /\
    errors <> [] /\
    (lookup "username" fields = None -> In (Missing "username") errors) /\
    (lookup "content" fields = None -> In (Missing "content") errors) /\
    ((exists v, lookup "username" fields = Some v /\ forall s, v <> JStr s) ->
     In (StringType "username") errors) /\
    ((exists v, lookup "content" fields = Some v /\ forall s, v <> JStr s) ->
     In (StringType "content") errors).
Proof.
  intros Hbad. unfold serve, validate_Post, validate_str.
  destruct (lookup "username" fields) as [[| | |u| |]|];
    destruct (lookup "content" fields) as [[| | |c| |]|];
    try (exfalso;
         destruct Hbad as [H|[H|[(v & H & Hv)|(v & H & Hv)]]];
         try discriminate H; injection H as <-; eapply Hv; reflexivity);
    (eexists; split; [reflexivity|];
     split; [reflexivity|];
     split; [discriminate|];
     repeat split;
     try (intros H; discriminate H);
     try (intros (v & H & Hv); try discriminate H;
          injection H as <-; try (exfalso; eapply Hv; reflexivity));
     simpl; auto).
Qed.

(** C3 at work: a number where the username should be, and no content. *)
Lemma C3_invalid_body_rejected_before_storage_witness :
  let fields := [("username", JNum 7)] in
  let w := boot fresh_database in
  (lookup "content" fields = None) /\
  exists errors,
    serve (mkDatetime 2024 5 17 9 30 0 0) (POST_posts (JObj fields)) w =
      (ValidationError errors, w) /\
    In (Missing "content") errors.
Proof.
  intros fields w. split; [reflexivity|].
  destruct (C3_invalid_body_rejected_before_storage
              (mkDatetime 2024 5 17 9 30 0 0) fields w
              (or_intror (or_introl eq_refl)))
    as (errors & Hrun & _ & _ & _ & Hcontent & _).
  exists errors. split; [exact Hrun | exact (Hcontent eq_refl)].
Defined.

(* ===================================================================== *)
(** * What a request does to the table *)
(* ===================================================================== *)

Lemma insert_post_cases (now : datetime) (u c : string) (t : table) :
  match Sql.insert_post now u c t with
  | Sql.Inserted id t' =>
      exists stored,
        Sql.varchar_assign varchar_limit u = Some stored /\
        id = tbl_seq t + 1 /\
        t' = mkTable (tbl_rows t ++ [mkRow id stored c now]) id
  | Sql.Rejected e t' =>
      tbl_rows t' = tbl_rows t /\
      (e = StringDataRightTruncation -> t' = t)
  end.
Proof.
  unfold Sql.insert_post.
  destruct (Sql.varchar_assign varchar_limit u) as [stored|]; [|now split].
  destruct (serial_max <=? tbl_seq t); [split; [reflexivity | discriminate]|].
  destruct (Sql.has_id (tbl_seq t + 1) (tbl_rows t)).
  - split; [reflexivity | discriminate].
  - exists stored. auto.
Qed.

(** The effect of one request: the server stays as reachable as it was; a
    missing table stays missing and nothing is created in it; an existing
    table keeps its rows, with one row after them exactly when the request
    is answered as a created post. *)
Lemma serve_effect (now : datetime) (r : request) (w : world) :
  let resp := fst (serve now r w) in
  let w' := snd (serve now r w) in
  db_reachable w' = db_reachable w /\
  match db_posts w with
  | None => db_posts w' = None /\ is_created r resp = false
  | Some t =>
      exists t',
        db_posts w' = Some t' /\
        if is_created r resp
        then exists new, tbl_rows t' = (tbl_rows t ++ [new])%list
        else tbl_rows t' = tbl_rows t
  end.
Proof.
  destruct r as [| |body|]; cbn [serve].
  - cbn [fst snd is_created]. split; [reflexivity|].
    destruct (db_posts w) as [t|]; [exists t|]; auto.
  - unfold run_handler. rewrite get_posts_run.
    destruct (db_reachable w) eqn:R; [destruct (db_posts w) as [t|] eqn:P; [destruct (forallb _ _)|]|];
      cbn; rewrite ?P; try (split; [auto|]); try (exists t); auto.
    destruct (db_posts w) as [t|]; [exists t|]; auto.
  - destruct (validate_Post body) as [post|errors].
    + unfold run_handler. rewrite create_post_run.
      destruct (db_reachable w) eqn:R.
      * destruct (Text.contains_nul (username post) || Text.contains_nul (content post)).
        { cbn. split; [auto|].
          destruct (db_posts w) as [t|]; [exists t|]; auto. }
        destruct (db_posts w) as [t|] eqn:P; [|cbn; auto].
        pose proof (insert_post_cases now (username post) (content post) t) as Hc.
        destruct (Sql.insert_post now (username post) (content post) t)
          as [id t'|e t']; cbn.
        { destruct Hc as (stored & _ & _ & ->). split; [auto|].
          eexists; split; [reflexivity|]. cbn. eexists; reflexivity. }
        { split; [auto|]. eexists; split; [reflexivity|]. reflexivity. }
      * cbn. rewrite R. split; [auto|].
        destruct (db_posts w) as [t|]; [exists t|]; auto.
    + cbn. split; [auto|]. destruct (db_posts w) as [t|]; [exists t|]; auto.
  - unfold run_handler. rewrite get_stats_run.
    destruct (db_reachable w) eqn:R; [destruct (db_posts w) as [t|] eqn:P|];
      cbn; rewrite ?P; try (split; [auto|]); try (exists t); auto.
    destruct (db_posts w) as [t|]; [exists t|]; auto.
Qed.

Lemma serve_row_count (now : datetime) (r : request) (w : world) :
  length (rows_of (snd (serve now r w))) =
  (length (rows_of w) + (if is_created r (fst (serve now r w)) then 1 else 0))%nat.
Proof.
  destruct (serve_effect now r w) as [_ H]. unfold rows_of.
  destruct (db_posts w) as [t|].
  - destruct H as (t' & -> & H).
    destruct (is_created r (fst (serve now r w))).
    + destruct H as [new ->]. rewrite length_app. reflexivity.
    + rewrite H. lia.
  - destruct H as [-> ->]. reflexivity.
Qed.

Lemma run_row_count (history : list (datetime * request)) (w : world) :
  length (rows_of (snd (run history w))) =
  (length (rows_of w) + count_created history (fst (run history w)))%nat.
Proof.
  revert w; induction history as [|[now r] history IH]; intros w; simpl.
  - lia.
  - pose proof (serve_row_count now r w) as Hstep.
    destruct (serve now r w) as [resp w1]; simpl in Hstep.
    specialize (IH w1). destruct (run history w1) as [resps w2]; simpl in *.
    lia.
Qed.

Lemma run_keeps_server (history : list (datetime * request)) (w : world) :
  db_reachable (snd (run history w)) = db_reachable w /\
  (db_posts w <> None -> db_posts (snd (run history w)) <> None).
Proof.
  revert w; induction history as [|[now r] history IH]; intros w; simpl.
  - auto.
  - pose proof (serve_effect now r w) as [Hup Htable].
    destruct (serve now r w) as [resp w1]; simpl in Hup, Htable.
    specialize (IH w1). destruct (run history w1) as [resps w2]; simpl in *.
    destruct IH as [IH1 IH2]. split; [congruence|].
    intros Hsome. apply IH2.
    destruct (db_posts w) as [t|]; [|congruence].
    destruct Htable as (t' & -> & _). discriminate.
Qed.

(* ===================================================================== *)
(** * Startup *)
(* ===================================================================== *)

Lemma boot_run (w : world) :
  boot w =
  if db_reachable w
  then opened_and_closed_one (Sql.create_table_if_not_exists (db_posts w)) w
  else w.
Proof.
  unfold boot. rewrite startup_run. now destruct (db_reachable w).
Qed.

(** C5. The startup hook leaves an existing table, rows and sequence, as
    it is; it creates an empty table when there is none and the server is
    reachable; running it a second time changes nothing in the database. *)
Theorem C5_startup_idempotent (w : world) :
  db_posts (boot (boot w)) = db_posts (boot w) /\
  db_reachable (boot (boot w)) = db_reachable (boot w) /\
  match db_posts w with
  | Some t => db_posts (boot w) = Some t
  | None =>
      db_posts (boot w) = if db_reachable w then Some (mkTable [] 0) else None
  end.
Proof.
  rewrite !boot_run.
  destruct (db_reachable w) eqn:R; cbn; rewrite ?R; cbn;
    destruct (db_posts w) as [t|] eqn:P; cbn; rewrite ?R, ?P; auto.
Qed.

(* ===================================================================== *)
(** * GET /stats *)
(* ===================================================================== *)

(** C4. Start the service on a reachable server without a [posts] table
    and serve any history of requests.  Right after startup [GET /stats]
    reports 0; after the history it reports the number of stored rows,
    which is the number of requests of the history answered as a created
    post; no request makes the number smaller; and the answer always
    carries [docker_magic]. *)
Theorem C4_stats_counts_created_posts
    (now : datetime) (history : list (datetime * request)) (w : world) :
  db_reachable w = true ->
  db_posts w = None ->
  let w0 := boot w in
  let resps := fst (run history w0) in
  let w' := snd (run history w0) in
  fst (serve now GET_stats w0) =
    Success (JObj [("total_posts", JNum 0); ("docker_magic", JStr "🐳✨")]) /\
  fst (serve now GET_stats w') =
    Success (JObj [("total_posts", JNum (Z.of_nat (length (rows_of w'))));
                   ("docker_magic", JStr "🐳✨")]) /\
  length (rows_of w') = count_created history resps /\
  (forall now' r,
      (length (rows_of w') <= length (rows_of (snd (serve now' r w'))))%nat).
Proof.
  intros Hup Hnone w0 resps w'.
  assert (Hw0 : w0 = opened_and_closed_one (Some (mkTable [] 0)) w).
  { unfold w0. rewrite boot_run, Hup, Hnone. reflexivity. }
  assert (Hup0 : db_reachable w0 = true) by (rewrite Hw0; exact Hup).
  assert (Hrows0 : rows_of w0 = []) by (rewrite Hw0; reflexivity).
  assert (Hsome0 : db_posts w0 <> None) by (rewrite Hw0; discriminate).
  destruct (run_keeps_server history w0) as [Hup' Hsome'].
  fold w' in Hup', Hsome'. specialize (Hsome' Hsome0). rewrite Hup0 in Hup'.
  split.
  { unfold serve, run_handler. rewrite get_stats_run, Hw0. cbn. now rewrite Hup. }
  split.
  { unfold serve, run_handler. rewrite get_stats_run, Hup'. unfold rows_of.
    destruct (db_posts w') as [t|]; [reflexivity | congruence]. }
  split.
  { pose proof (run_row_count history w0) as H. fold w' resps in H.
    rewrite Hrows0 in H. exact H. }
  intros now' r. rewrite serve_row_count. lia.
Qed.

(** C4 at work: of four requests only the first stores a post. *)
Lemma C4_stats_counts_created_posts_witness :
  let t0 := mkDatetime 2024 5 17 9 30 0 0 in
  let history :=
    [(t0, POST_posts (post_body "alice" "hello"));
     (t0, POST_posts (JObj [("username", JStr "bob")]));
     (t0, GET_posts);
     (t0, POST_posts (post_body (Text.replicate 101 "a") "hello"))] in
  (db_reachable fresh_database = true /\ db_posts fresh_database = None) /\
  count_created history (fst (run history (boot fresh_database))) = 1%nat /\
  fst (serve t0 GET_stats (snd (run history (boot fresh_database)))) =
    Success (JObj [("total_posts", JNum 1); ("docker_magic", JStr "🐳✨")]).
Proof.
  intros t0 history.
  split; [split; reflexivity|].
  split; [vm_compute; reflexivity|].
  destruct (C4_stats_counts_created_posts t0 history fresh_database
              eq_refl eq_refl) as (_ & Hstats & Hcount & _).
  rewrite Hstats, Hcount. vm_compute. reflexivity.
Defined.

(* ===================================================================== *)
(** * No update, no delete *)
(* ===================================================================== *)

(** C6. [GET /], [GET /posts] and [GET /stats] leave the table, rows and
    sequence, as it is; [POST /posts] keeps every stored row, in place and
    as it was, and adds at most one row after them. *)
Theorem C6_rows_only_appended (now : datetime) (r : request) (w : world) :
  let w' := snd (serve now r w) in
  match r with
  | POST_posts _ =>
      exists added, rows_of w' = (rows_of w ++ added)%list /\ (length added <= 1)%nat
  | _ => db_posts w' = db_posts w
  end.
Proof.
  destruct r as [| |body|]; cbn [serve].
  - reflexivity.
  - unfold run_handler. rewrite get_posts_run.
    destruct (db_reachable w); [destruct (db_posts w) eqn:P; [destruct (forallb _ _)|]|]; cbn; auto.
  - pose proof (serve_effect now (POST_posts body) w) as [_ H].
    cbn [serve] in H. cbv zeta. unfold rows_of.
    destruct (db_posts w) as [t|].
    + destruct H as (t' & -> & H).
      destruct (is_created _ _).
      * destruct H as [new ->]. exists [new]. auto.
      * rewrite H. exists []. rewrite app_nil_r. auto.
    + destruct H as [-> _]. exists []. auto.
  - unfold run_handler. rewrite get_stats_run.
    destruct (db_reachable w); [destruct (db_posts w) eqn:P|]; cbn; auto.
Qed.

(* ===================================================================== *)
(** * Connections *)
(* ===================================================================== *)

(** Every request is accounted for: an answer from a handler that returned
    has opened one connection and closed it; a failure to connect has
    opened none; any other exception leaves the connection it opened
    unclosed, since the [close] calls sit at the end of the handler and
    are not reached. *)
Lemma connection_accounting (now : datetime) (r : request) (w : world) :
  let w' := snd (serve now r w) in
  match r, fst (serve now r w) with
  | GET_root, _ | _, ValidationError _ | _, ServerError OperationalError =>
      conns_opened w' = conns_opened w /\ conns_closed w' = conns_closed w
  | _, Success _ =>
      conns_opened w' = S (conns_opened w) /\ conns_closed w' = S (conns_closed w)
  | _, ServerError _ =>
      conns_opened w' = S (conns_opened w) /\ conns_closed w' = conns_closed w
  end.
Proof.
  destruct r as [| |body|]; cbn [serve].
  - cbn. auto.
  - unfold run_handler. rewrite get_posts_run.
    destruct (db_reachable w); [destruct (db_posts w); [destruct (forallb _ _)|]|]; cbn; auto.
  - destruct (validate_Post body) as [post|errors]; [|cbn; auto].
    unfold run_handler. rewrite create_post_run.
    destruct (db_reachable w); [|cbn; auto].
    destruct (_ || _); [cbn; auto|].
    destruct (db_posts w) as [t|]; [|cbn; auto].
    pose proof (insert_post_cases now (username post) (content post) t) as Hc.
    unfold Sql.insert_post in *.
    destruct (Sql.varchar_assign varchar_limit (username post)); [|cbn; auto].
    destruct (serial_max <=? tbl_seq t); [cbn; auto|].
    destruct (Sql.has_id _ _); cbn; auto.
  - unfold run_handler. rewrite get_stats_run.
    destruct (db_reachable w); [destruct (db_posts w)|]; cbn; auto.
Qed.

(** C7 on three requests the service can receive.  A post whose username
    has 101 letters is refused by the table, and [GET /posts] and
    [GET /stats] fail while the table is missing; each time the handler
    stops at the statement and the connection it opened stays open. *)
Theorem C7_connection_left_open_on_error :
  let now := mkDatetime 2024 5 17 9 30 0 0 in
  let long_name := POST_posts (post_body (Text.replicate 101 "a") "hello") in
  (open_connections (boot fresh_database) = 0%nat /\
   fst (serve now long_name (boot fresh_database)) =
     ServerError StringDataRightTruncation /\
   open_connections (snd (serve now long_name (boot fresh_database))) = 1%nat) /\
  (open_connections fresh_database = 0%nat /\
   fst (serve now GET_posts fresh_database) = ServerError UndefinedTable /\
   open_connections (snd (serve now GET_posts fresh_database)) = 1%nat /\
   fst (serve now GET_stats fresh_database) = ServerError UndefinedTable /\
   open_connections (snd (serve now GET_stats fresh_database)) = 1%nat).
Proof.
  intros now long_name. repeat split; vm_compute; reflexivity.
Qed.

(* ===================================================================== *)
(** * The first post *)
(* ===================================================================== *)

(** C8. After startup on a fresh database, posting alice's hello is
    answered with id 1, and the listing that follows holds that one post,
    stamped with the clock reading of the insert. *)
Theorem C8_first_post_scenario (now later : datetime) :
  let w0 := boot fresh_database in
  let body := JObj [("username", JStr "alice"); ("content", JStr "hello")] in
  fst (serve now (POST_posts body) w0) =
    Success (JObj [("id", JNum 1); ("message", JStr "Post created!")]) /\
  fst (serve later GET_posts (snd (serve now (POST_posts body) w0))) =
    Success (JObj [("posts",
                    JArr [JObj [("id", JNum 1);
                                ("username", JStr "alice");
                                ("content", JStr "hello");
                                ("created_at", JStr (Datetime.str now))]])]).
Proof.
  split; [reflexivity|].
  cbv zeta.
  replace (snd (serve now
                  (POST_posts (JObj [("username", JStr "alice");
                                     ("content", JStr "hello")]))
                  (boot fresh_database)))
    with (mkWorld true (Some (mkTable [mkRow 1 "alice" "hello" now] 1)) 2 2)
    by reflexivity.
  unfold serve, run_handler. rewrite get_posts_run.
  cbn -[Datetime.valid Datetime.str].
  rewrite (datetime_valid now). reflexivity.
Qed.

(* ===================================================================== *)
(** * GET / *)
(* ===================================================================== *)

(** C9. [GET /] answers with the same message in every world and at every
    time, and leaves the world as it is: no connection is opened. *)
Theorem C9_root_is_static (now1 now2 : datetime) (w1 w2 : world) :
  fst (serve now1 GET_root w1) = fst (serve now2 GET_root w2) /\
  fst (serve now1 GET_root w1) =
    Success (JObj [("message", JStr "🐳 DevOps Social API is live!")]) /\
  snd (serve now1 GET_root w1) = w1.
Proof. repeat split. Qed.

(* ===================================================================== *)
(** * Over-long usernames *)
(* ===================================================================== *)

Lemma clip_kept_exact (n : nat) (s : string) :
  (n <= Text.char_length s)%nat ->
  Text.char_length (fst (Text.clip n s)) = n.
Proof.
  revert n; induction s as [|c s IH]; intros n; simpl.
  - intros H. now inversion H.
  - destruct (Text.is_continuation c) eqn:E.
    + intros H. specialize (IH n H). destruct (Text.clip n s); simpl in *.
      now rewrite E.
    + destruct n as [|m]; simpl; [reflexivity|].
      intros H. assert (Hm : (m <= Text.char_length s)%nat) by lia.
      specialize (IH m Hm). destruct (Text.clip m s); simpl in *.
      rewrite E. now rewrite IH.
Qed.

(** C10 (amended).  A body with two strings passes validation, whatever
    the length of the username.  A username with something other than a
    space after its first 100 characters (it is then longer than 100
    characters) is answered with a server error and leaves the table, rows
    and sequence, as it is; the error is the table's refusal of the value
    whenever the server is reachable, the table exists and neither string
    has a NUL character.  A username longer than 100 characters with
    nothing but spaces after its first 100 characters is not refused: on a
    reachable server whose table holds only ids of its sequence and has not
    used the sequence up, and with no NUL character in either string, the
    post is created and its username is stored cut to the first 100
    characters. *)
Theorem C10_overlong_username_is_server_error
    (now : datetime) (u c : string) (w : world) :
  let resp := fst (serve now (POST_posts (post_body u c)) w) in
  let w' := snd (serve now (POST_posts (post_body u c)) w) in
  let kept := fst (Text.clip 100 u) in
  let excess := snd (Text.clip 100 u) in
  validate_Post (post_body u c) = inl (mkPost u c) /\
  (Text.all_spaces excess = false ->
   (100 < Text.char_length u)%nat /\
   (exists e, resp = ServerError e) /\
   status_code resp = 500 /\
   db_posts w' = db_posts w /\
   (db_reachable w = true -> db_posts w <> None ->
    Text.contains_nul u = false -> Text.contains_nul c = false ->
    resp = ServerError StringDataRightTruncation)) /\
  ((100 < Text.char_length u)%nat ->
   Text.all_spaces excess = true ->
   Text.char_length kept = 100%nat /\
   forall t,
     db_reachable w = true -> db_posts w = Some t ->
     ids_from_sequence t -> tbl_seq t < serial_max ->
     Text.contains_nul u = false -> Text.contains_nul c = false ->
     resp = Success (JObj [("id", JNum (tbl_seq t + 1));
                           ("message", JStr "Post created!")]) /\
     db_posts w' =
       Some (mkTable (tbl_rows t ++ [mkRow (tbl_seq t + 1) kept c now])
                     (tbl_seq t + 1))).
Proof.
  intros resp w' kept excess.
  split; [reflexivity|]. split.
  - intros Hexcess.
    assert (Hrefused : Sql.varchar_assign varchar_limit u = None).
    { unfold Sql.varchar_assign, varchar_limit. subst excess.
      destruct (Text.clip 100 u) as [k x]; simpl in Hexcess.
      now rewrite Hexcess. }
    split; [now apply varchar_assign_refuses_only_long|].
    subst resp w'. unfold serve. rewrite validate_post_body.
    unfold run_handler. rewrite create_post_run. cbn [username content].
    unfold Sql.insert_post. rewrite Hrefused.
    destruct (db_reachable w) eqn:R;
      [destruct (Text.contains_nul u), (Text.contains_nul c);
       destruct (db_posts w) as [[rows seq]|] eqn:P|];
      cbn; rewrite ?P; repeat split; eauto; try congruence; intros; congruence.
  - intros Hlong Hexcess.
    split; [apply clip_kept_exact; lia|].
    intros t Hup Htable Hids Hseq Hnu Hnc.
    assert (Hfit : Sql.varchar_assign varchar_limit u = Some kept).
    { unfold Sql.varchar_assign, varchar_limit. subst kept excess.
      destruct (Text.clip 100 u) as [k x]; simpl in *. now rewrite Hexcess. }
    subst resp w'. unfold serve. rewrite validate_post_body.
    unfold run_handler. rewrite create_post_run, Hup, Htable.
    cbn [username content]. rewrite Hnu, Hnc. cbn [orb].
    rewrite (insert_post_inserts now u c kept t Hfit Hseq Hids).
    split; reflexivity.
Qed.

(** The amended C10 at work: 101 letters are refused; 100 letters and a
    space are stored as the 100 letters. *)
Lemma C10_overlong_username_is_server_error_witness :
  let now := mkDatetime 2024 5 17 9 30 0 0 in
  let u := Text.replicate 101 "a" in
  let v := Text.replicate 100 "a" ++ " " in
  (Text.all_spaces (snd (Text.clip 100 u)) = false /\
   fst (serve now (POST_posts (post_body u "hello")) (boot fresh_database)) =
     ServerError StringDataRightTruncation /\
   db_posts (snd (serve now (POST_posts (post_body u "hello")) (boot fresh_database))) =
     Some (mkTable [] 0)) /\
  ((100 < Text.char_length v)%nat /\
   Text.all_spaces (snd (Text.clip 100 v)) = true /\
   fst (serve now (POST_posts (post_body v "hello")) (boot fresh_database)) =
     Success (JObj [("id", JNum 1); ("message", JStr "Post created!")]) /\
   Text.char_length (fst (Text.clip 100 v)) = 100%nat).
Proof.
  intros now u v. split.
  - destruct (C10_overlong_username_is_server_error now u "hello"
                (boot fresh_database))
      as (_ & Hrefused & _).
    destruct (Hrefused eq_refl) as (_ & _ & _ & Htable & Herror).
    split; [reflexivity|].
    split.
    + apply Herror; [reflexivity | discriminate | reflexivity | reflexivity].
    + rewrite Htable. reflexivity.
  - destruct (C10_overlong_username_is_server_error now v "hello"
                (boot fresh_database))
      as (_ & _ & Hcut).
    assert (Hlong : (100 < Text.char_length v)%nat) by (vm_compute; lia).
    destruct (Hcut Hlong eq_refl) as (Hkept & Hstored).
    split; [exact Hlong|]. split; [reflexivity|].
    split; [|exact Hkept].
    assert (Hids : ids_from_sequence (mkTable [] 0)) by constructor.
    exact (proj1 (Hstored (mkTable [] 0) eq_refl eq_refl Hids eq_refl
                    eq_refl eq_refl)).
Defined.

(** C10 as stated fails on a username of 100 letters and one space: it has
    101 characters, and the table stores it cut to 100 instead of refusing
    it, so the post is created. *)
Lemma C10_counterexample :
  let now := mkDatetime 2024 5 17 9 30 0 0 in
  let u := Text.replicate 100 "a" ++ " " in
  Text.char_length u = 101%nat /\
  serve now (POST_posts (post_body u "hello")) (boot fresh_database) =
    (Success (JObj [("id", JNum 1); ("message", JStr "Post created!")]),
     mkWorld true
       (Some (mkTable [mkRow 1 (Text.replicate 100 "a") "hello" now] 1)) 2 2).
Proof. split; vm_compute; reflexivity. Qed.

(* ===================================================================== *)
(** * The tables the service builds *)
(* ===================================================================== *)

Lemma clip_kept_length (n : nat) (s : string) :
  (Text.char_length (fst (Text.clip n s)) <= n)%nat.
Proof.
  revert n; induction s as [|c s IH]; intros n; simpl; [lia|].
  destruct (Text.is_continuation c) eqn:E.
  - specialize (IH n). destruct (Text.clip n s); simpl in *. now rewrite E.
  - destruct n as [|m]; simpl; [lia|].
    specialize (IH m). destruct (Text.clip m s); simpl in *. rewrite E. lia.
Qed.

Lemma varchar_assign_stored_length (n : nat) (s stored : string) :
  Sql.varchar_assign n s = Some stored -> (Text.char_length stored <= n)%nat.
Proof.
  unfold Sql.varchar_assign. pose proof (clip_kept_length n s) as H.
  destruct (Text.clip n s) as [kept excess]; simpl in H.
  destruct (Text.all_spaces excess); [|discriminate].
  now intros [= <-].
Qed.

Lemma sorted_snoc {A : Type} (R : A -> A -> Prop) (l : list A) (x : A) :
  StronglySorted R l -> Forall (fun a => R a x) l ->
  StronglySorted R (l ++ [x]).
Proof.
  induction 1 as [|a l Hs IH Ha]; intros Hx; simpl.
  - repeat constructor.
  - inversion Hx; subst. constructor; [auto|].
    apply Forall_app; split; [exact Ha | repeat constructor; assumption].
Qed.

Lemma table_ok_has_no_next_id (t : table) :
  table_ok t -> Sql.has_id (tbl_seq t + 1) (tbl_rows t) = false.
Proof.
  intros (_ & Hrows & _). apply has_id_above_sequence; [|lia].
  eapply Forall_impl; [|exact Hrows]. intros r Hr. cbv beta in Hr. lia.
Qed.

(** On a table the service built, the [INSERT] either appends a row and
    keeps the table well built, or is refused and leaves table and sequence
    as they were; the primary key is never violated. *)
Lemma insert_post_keeps_table_ok (now : datetime) (u c : string) (t : table) :
  table_ok t ->
  match Sql.insert_post now u c t with
  | Sql.Inserted _ t' => table_ok t'
  | Sql.Rejected e t' => t' = t /\ e <> UniqueViolation
  end.
Proof.
  intros Hok. pose proof (table_ok_has_no_next_id t Hok) as Hfree.
  destruct Hok as (Hsorted & Hrows & Hseq).
  unfold Sql.insert_post.
  destruct (Sql.varchar_assign varchar_limit u) as [stored|] eqn:Hfit;
    [|split; [reflexivity | discriminate]].
  destruct (Z.leb_spec serial_max (tbl_seq t));
    [split; [reflexivity | discriminate]|].
  rewrite Hfree. unfold table_ok; cbn [tbl_rows tbl_seq].
  split; [|split].
  - apply sorted_snoc; [exact Hsorted|].
    eapply Forall_impl; [|exact Hrows].
    intros r Hr. unfold older_id; cbn [row_id]. cbv beta in Hr. lia.
  - apply Forall_app; split.
    + eapply Forall_impl; [|exact Hrows]. intros r Hr. cbv beta in Hr.
      split; [lia | tauto].
    + constructor; [|constructor]. cbn [row_id row_username].
      split; [lia|]. eapply varchar_assign_stored_length; exact Hfit.
  - lia.
Qed.

Lemma serve_keeps_database_ok (now : datetime) (r : request) (w : world) :
  database_ok w -> database_ok (snd (serve now r w)).
Proof.
  unfold database_ok. intros Hok.
  destruct r as [| |body|]; cbn [serve].
  - exact Hok.
  - unfold run_handler. rewrite get_posts_run.
    destruct (db_reachable w); [destruct (db_posts w) eqn:P; [destruct (forallb _ _)|]|]; cbn;
      rewrite ?P; auto.
  - destruct (validate_Post body) as [post|errors]; [|exact Hok].
    unfold run_handler. rewrite create_post_run.
    destruct (db_reachable w); [|exact Hok].
    destruct (_ || _); [exact Hok|].
    destruct (db_posts w) as [t|] eqn:P; [|cbn; now rewrite P].
    pose proof (insert_post_keeps_table_ok now (username post) (content post) t Hok)
      as Hins.
    destruct (Sql.insert_post now (username post) (content post) t) as [id t'|e t'];
      cbn; [exact Hins|].
    destruct Hins as [-> _]. now destruct t.
  - unfold run_handler. rewrite get_stats_run.
    destruct (db_reachable w); [destruct (db_posts w) eqn:P|]; cbn;
      rewrite ?P; auto.
Qed.

Lemma run_keeps_database_ok (history : list (datetime * request)) (w : world) :
  database_ok w -> database_ok (snd (run history w)).
Proof.
  revert w; induction history as [|[now r] history IH]; intros w Hok; simpl.
  - exact Hok.
  - pose proof (serve_keeps_database_ok now r w Hok) as Hstep.
    destruct (serve now r w) as [resp w1]; simpl in Hstep.
    specialize (IH w1 Hstep). now destruct (run history w1).
Qed.

Lemma boot_database_ok (w : world) :
  db_posts w = None -> database_ok (boot w).
Proof.
  intros Hnone. rewrite boot_run. unfold database_ok.
  destruct (db_reachable w); cbn; rewrite Hnone; cbn; [|exact I].
  unfold table_ok; cbn. repeat split; try constructor; discriminate.
Qed.

Lemma sorted_ids_distinct (rows : list row) :
  StronglySorted older_id rows -> NoDup (map row_id rows).
Proof.
  induction 1 as [|a l Hs IH Ha]; simpl; constructor; [|exact IH].
  rewrite in_map_iff. intros (b & Heq & Hin).
  rewrite Forall_forall in Ha. specialize (Ha b Hin). unfold older_id in Ha. lia.
Qed.

(** X1. Start the service where there is no [posts] table and serve any
    history.  If the server was unreachable there is still no table;
    otherwise the table holds ids that grow along the table and are
    therefore distinct, each between 1 and the value of the sequence, which
    is at most 2^31-1, and every stored username has at most 100
    characters. *)
Theorem X1_service_tables_well_built
    (history : list (datetime * request)) (w : world) :
  db_posts w = None ->
  match db_posts (snd (run history (boot w))) with
  | None => db_reachable w = false
  | Some t =>
      StronglySorted (fun a b => row_id a < row_id b) (tbl_rows t) /\
      NoDup (map row_id (tbl_rows t)) /\
      Forall (fun r => 1 <= row_id r <= tbl_seq t /\
                       (Text.char_length (row_username r) <= 100)%nat)
             (tbl_rows t) /\
      tbl_seq t <= 2147483647
  end.
Proof.
  intros Hnone.
  pose proof (run_keeps_database_ok history (boot w) (boot_database_ok w Hnone))
    as Hok.
  destruct (run_keeps_server history (boot w)) as [_ Hsome].
  unfold database_ok in Hok.
  destruct (db_posts (snd (run history (boot w)))) as [t|].
  - destruct Hok as (Hsorted & Hrows & Hseq).
    split; [exact Hsorted|].
    split; [now apply sorted_ids_distinct|].
    split; [exact Hrows|]. unfold serial_max in Hseq. lia.
  - destruct (db_reachable w) eqn:R; [|reflexivity].
    exfalso. apply Hsome; [|reflexivity].
    rewrite boot_run, R, Hnone. discriminate.
Qed.

(** X1 at work: three posts, the second refused for its username. *)
Lemma X1_service_tables_well_built_witness :
  let t0 := mkDatetime 2024 5 17 9 30 0 0 in
  let history :=
    [(t0, POST_posts (post_body "alice" "hello"));
     (t0, POST_posts (post_body (Text.replicate 101 "a") "hello"));
     (t0, POST_posts (post_body "alice" "hello"))] in
  db_posts fresh_database = None /\
  length (rows_of (snd (run history (boot fresh_database)))) = 2%nat /\
  NoDup (map row_id (rows_of (snd (run history (boot fresh_database))))).
Proof.
  intros t0 history.
  split; [reflexivity|]. split; [vm_compute; reflexivity|].
  pose proof (X1_service_tables_well_built history fresh_database eq_refl) as H.
  unfold rows_of.
  destruct (db_posts (snd (run history (boot fresh_database)))) as [t|].
  - exact (proj1 (proj2 H)).
  - constructor.
Defined.

(* ===================================================================== *)
(** * The running service *)
(* ===================================================================== *)

Lemma started_service (history : list (datetime * request)) (w : world) :
  db_reachable w = true -> db_posts w = None ->
  let w' := snd (run history (boot w)) in
  db_reachable w' = true /\ exists t, db_posts w' = Some t /\ table_ok t.
Proof.
  intros Hup Hnone w'.
  destruct (run_keeps_server history (boot w)) as [Hup' Hsome].
  pose proof (run_keeps_database_ok history (boot w) (boot_database_ok w Hnone))
    as Hok.
  fold w' in Hup', Hsome, Hok.
  assert (Hboot : boot w = opened_and_closed_one (Some (mkTable [] 0)) w)
    by (rewrite boot_run, Hup, Hnone; reflexivity).
  split; [rewrite Hup', Hboot; exact Hup|].
  unfold database_ok in Hok. destruct (db_posts w') as [t|].
  - now exists t.
  - exfalso. apply Hsome; [rewrite Hboot; discriminate | reflexivity].
Qed.

Lemma serve_keeps_stamps_valid (now : datetime) (r : request) (w : world) :
  stamps_valid w -> stamps_valid (snd (serve now r w)).
Proof.
  unfold stamps_valid, rows_of. intros Hvalid.
  destruct r as [| |body|]; cbn [serve].
  - exact Hvalid.
  - unfold run_handler. rewrite get_posts_run.
    destruct (db_reachable w);
      [destruct (db_posts w) eqn:P; [destruct (forallb _ _)|]|];
      cbn; rewrite ?P; exact Hvalid.
  - destruct (validate_Post body) as [post|errors]; [|exact Hvalid].
    unfold run_handler. rewrite create_post_run.
    destruct (db_reachable w); [|exact Hvalid].
    destruct (_ || _); [exact Hvalid|].
    destruct (db_posts w) as [t|] eqn:P; [|cbn; now rewrite P].
    pose proof (insert_post_cases now (username post) (content post) t) as Hins.
    destruct (Sql.insert_post now (username post) (content post) t) as [id t'|e t'];
      cbn; [|exact Hvalid].
    destruct Hins as (stored & _ & _ & ->). cbn [tbl_rows].
    apply Forall_app; split; [exact Hvalid|].
    constructor; [|constructor]. cbn [row_created_at]. apply datetime_valid.
  - unfold run_handler. rewrite get_stats_run.
    destruct (db_reachable w); [destruct (db_posts w) eqn:P|]; cbn;
      rewrite ?P; exact Hvalid.
Qed.

Lemma run_keeps_stamps_valid (history : list (datetime * request)) (w : world) :
  stamps_valid w -> stamps_valid (snd (run history w)).
Proof.
  revert w; induction history as [|[now r] history IH]; intros w Hok; simpl.
  - exact Hok.
  - pose proof (serve_keeps_stamps_valid now r w Hok) as Hstep.
    destruct (serve now r w) as [resp w1]; simpl in Hstep.
    specialize (IH w1 Hstep). now destruct (run history w1).
Qed.

Lemma boot_stamps_valid (w : world) :
  db_posts w = None -> stamps_valid (boot w).
Proof.
  intros Hnone. rewrite boot_run. unfold stamps_valid, rows_of.
  destruct (db_reachable w); cbn; rewrite Hnone; constructor.
Qed.

(** In the running service every stored timestamp is a clock reading, so
    [fetchall] accepts every result. *)
Lemma started_service_fetches (history : list (datetime * request)) (w : world)
    (t : table) :
  db_posts w = None ->
  db_posts (snd (run history (boot w))) = Some t ->
  forallb (fun r => Datetime.valid (row_created_at r)) (Sql.select_posts t) = true.
Proof.
  intros Hnone Htable.
  pose proof (run_keeps_stamps_valid history (boot w) (boot_stamps_valid w Hnone))
    as Hvalid.
  unfold stamps_valid, rows_of in Hvalid. rewrite Htable in Hvalid.
  now apply select_posts_valid.
Qed.

Lemma select_posts_length (t : table) :
  length (Sql.select_posts t) = Nat.min 50 (length (tbl_rows t)).
Proof.
  unfold Sql.select_posts, listing_limit. rewrite length_firstn.
  now rewrite (Permutation_length (order_by_perm (tbl_rows t))).
Qed.





(** X4. On a table the service built, a request that is not answered as a
    created post leaves the database as it was, rows and sequence: a
    refused or failed request stores nothing, not even in part. *)
Theorem X4_failed_request_changes_nothing
    (now : datetime) (r : request) (w : world) :
  database_ok w ->
  is_created r (fst (serve now r w)) = false ->
  db_posts (snd (serve now r w)) = db_posts w.
Proof.
  unfold database_ok. intros Hok.
  destruct r as [| |body|]; cbn [serve].
  - reflexivity.
  - unfold run_handler. rewrite get_posts_run.
    destruct (db_reachable w); [destruct (db_posts w) eqn:P; [destruct (forallb _ _)|]|]; cbn; auto.
  - destruct (validate_Post body) as [post|errors]; [|reflexivity].
    unfold run_handler. rewrite create_post_run.
    destruct (db_reachable w); [|reflexivity].
    destruct (_ || _); [reflexivity|].
    destruct (db_posts w) as [t|] eqn:P; [|cbn; auto].
    pose proof (insert_post_keeps_table_ok now (username post) (content post) t Hok)
      as Hins.
    destruct (Sql.insert_post now (username post) (content post) t) as [id t'|e t'];
      cbn; [discriminate|].
    destruct Hins as [-> _]. intros _. now destruct t.
  - unfold run_handler. rewrite get_stats_run.
    destruct (db_reachable w); [destruct (db_posts w) eqn:P|]; cbn; auto.
Qed.

(** X4 at work: a post with a NUL character in its content. *)
Lemma X4_failed_request_changes_nothing_witness :
  let t0 := mkDatetime 2024 5 17 9 30 0 0 in
  let w := snd (serve t0 (POST_posts (post_body "alice" "hello")) (boot fresh_database)) in
  let r := POST_posts (post_body "bob" (String zero "x")) in
  (database_ok w /\ is_created r (fst (serve t0 r w)) = false) /\
  db_posts (snd (serve t0 r w)) = db_posts w.
Proof.
  intros t0 w r.
  assert (Hok : database_ok w).
  { apply serve_keeps_database_ok, boot_database_ok. reflexivity. }
  split; [split; [exact Hok | reflexivity]|].
  exact (X4_failed_request_changes_nothing t0 r w Hok eq_refl).
Defined.

(* ===================================================================== *)
(** * What the listing shows and what it leaves out *)
(* ===================================================================== *)

Lemma sorted_app_inv {A : Type} (R : A -> A -> Prop) (l1 l2 : list A) :
  StronglySorted R (l1 ++ l2) ->
  forall a b, In a l1 -> In b l2 -> R a b.
Proof.
  induction l1 as [|x l1 IH]; simpl; intros Hs a b Ha Hb; [destruct Ha|].
  inversion Hs as [|? ? Hs' Hx]; subst.
  destruct Ha as [->|Ha]; [|now apply IH].
  rewrite Forall_forall in Hx. apply Hx, in_or_app. now right.
Qed.

Lemma listing_answered (now : datetime) (w : world) (body : json) :
  fst (serve now GET_posts w) = Success body ->
  exists t,
    db_posts w = Some t /\
    body = JObj [("posts", JArr (map render_post (Sql.select_posts t)))].
Proof.
  unfold serve, run_handler. rewrite get_posts_run.
  destruct (db_reachable w); [|discriminate].
  destruct (db_posts w) as [t|]; [|discriminate].
  destruct (forallb _ _); [|discriminate].
  cbn [fst]. intros [= <-]. now exists t.
Qed.

(** X5. Whenever [GET /posts] is answered 200, the listed posts and the
    rows left out make up the table; every listed post is at least as
    recent as every row left out; and nothing is left out of a table of at
    most 50 rows. *)
Theorem X5_listing_is_the_newest (now : datetime) (w : world) (body : json) :
  fst (serve now GET_posts w) = Success body ->
  exists t listed left_out,
    db_posts w = Some t /\
    body = JObj [("posts", JArr (map render_post listed))] /\
    Permutation (listed ++ left_out) (tbl_rows t) /\
    length listed = Nat.min 50 (length (tbl_rows t)) /\
    (forall a b, In a listed -> In b left_out ->
                 Datetime.leb (row_created_at b) (row_created_at a) = true) /\
    ((length (tbl_rows t) <= 50)%nat -> left_out = []).
Proof.
  intros Hok. destruct (listing_answered now w body Hok) as (t & Htable & ->).
  set (arranged := Sql.order_by_created_at_desc (tbl_rows t)).
  exists t, (firstn 50 arranged), (skipn 50 arranged).
  split; [exact Htable|].
  split; [reflexivity|].
  split.
  { rewrite firstn_skipn. apply order_by_perm. }
  split.
  { apply select_posts_length. }
  split.
  { intros a b Ha Hb.
    apply (sorted_app_inv newer_or_equal (firstn 50 arranged) (skipn 50 arranged));
      [|exact Ha | exact Hb].
    rewrite firstn_skipn. apply order_by_sorted. }
  intros Hsmall. apply skipn_all2.
  unfold arranged. rewrite (Permutation_length (order_by_perm (tbl_rows t))).
  exact Hsmall.
Qed.

(** X5 at work on a table of two posts. *)
Lemma X5_listing_is_the_newest_witness :
  let t0 := mkDatetime 2024 5 17 9 30 0 0 in
  let t1 := mkDatetime 2024 5 17 9 30 1 0 in
  let t := mkTable [mkRow 1 "alice" "hello" t0; mkRow 2 "bob" "hi" t1] 2 in
  let w := mkWorld true (Some t) 3 3 in
  let body :=
    JObj [("posts", JArr [render_post (mkRow 2 "bob" "hi" t1);
                          render_post (mkRow 1 "alice" "hello" t0)])] in
  fst (serve t1 GET_posts w) = Success body /\
  exists listed,
    body = JObj [("posts", JArr (map render_post listed))] /\
    length listed = 2%nat.
Proof.
  intros t0 t1 t w body.
  assert (Hok : fst (serve t1 GET_posts w) = Success body) by reflexivity.
  split; [exact Hok|].
  destruct (X5_listing_is_the_newest t1 w body Hok)
    as (t' & listed & left_out & Htable & Hbody & _ & Hlen & _).
  exists listed. split; [exact Hbody|].
  injection Htable as <-. exact Hlen.
Defined.

Lemma insert_desc_oldest (r : row) (l : list row) :
  Forall (strictly_older r) l -> Sql.insert_desc r l = (l ++ [r])%list.
Proof.
  induction 1 as [|b l Hb _ IH]; simpl; [reflexivity|].
  unfold strictly_older in Hb. now rewrite Hb, IH.
Qed.

Lemma order_by_of_increasing (rows : list row) :
  StronglySorted strictly_older rows ->
  Sql.order_by_created_at_desc rows = rev rows.
Proof.
  induction 1 as [|r rows _ IH Hr]; simpl; [reflexivity|].
  rewrite IH. apply insert_desc_oldest. now apply Forall_rev.
Qed.

(** X6. When every stored post was stamped later than the rows before it
    in the table, a listing that is answered 200 is the last 50 rows of
    the table, the last inserted first. *)
Theorem X6_listing_under_a_forward_clock
    (now : datetime) (w : world) (t : table) (body : json) :
  db_posts w = Some t ->
  StronglySorted
    (fun a b => Datetime.leb (row_created_at b) (row_created_at a) = false)
    (tbl_rows t) ->
  fst (serve now GET_posts w) = Success body ->
  body = JObj [("posts", JArr (map render_post (firstn 50 (rev (tbl_rows t)))))].
Proof.
  intros Htable Hclock Hok.
  destruct (listing_answered now w body Hok) as (t' & Htable' & ->).
  rewrite Htable in Htable'. injection Htable' as <-.
  unfold Sql.select_posts, listing_limit.
  now rewrite (order_by_of_increasing (tbl_rows t) Hclock).
Qed.

(** X6 at work: bob posted a second after alice and is listed first. *)
Lemma X6_listing_under_a_forward_clock_witness :
  let t0 := mkDatetime 2024 5 17 9 30 0 0 in
  let t1 := mkDatetime 2024 5 17 9 30 1 0 in
  let t := mkTable [mkRow 1 "alice" "hello" t0; mkRow 2 "bob" "hi" t1] 2 in
  let w := mkWorld true (Some t) 3 3 in
  let body :=
    JObj [("posts", JArr [render_post (mkRow 2 "bob" "hi" t1);
                          render_post (mkRow 1 "alice" "hello" t0)])] in
  (db_posts w = Some t /\
   StronglySorted
     (fun a b => Datetime.leb (row_created_at b) (row_created_at a) = false)
     (tbl_rows t) /\
   fst (serve t1 GET_posts w) = Success body) /\
  body = JObj [("posts", JArr (map render_post (firstn 50 (rev (tbl_rows t)))))].
Proof.
  intros t0 t1 t w body.
  assert (Hclock : StronglySorted
            (fun a b => Datetime.leb (row_created_at b) (row_created_at a) = false)
            (tbl_rows t)).
  { repeat constructor. }
  assert (Hok : fst (serve t1 GET_posts w) = Success body) by reflexivity.
  split; [repeat split; assumption|].
  exact (X6_listing_under_a_forward_clock t1 w t body eq_refl Hclock Hok).
Defined.

(* ===================================================================== *)
(** * Reads do not show *)
(* ===================================================================== *)

(** The answer to a request and the database it leaves depend on the
    server and its table only, not on the connection counts. *)
Lemma serve_depends_on_database (now : datetime) (r : request) (w1 w2 : world) :
  db_reachable w1 = db_reachable w2 ->
  db_posts w1 = db_posts w2 ->
  fst (serve now r w1) = fst (serve now r w2) /\
  db_posts (snd (serve now r w1)) = db_posts (snd (serve now r w2)).
Proof.
  intros Hup Htable.
  destruct r as [| |body|]; cbn [serve].
  - cbn. split; congruence.
  - unfold run_handler. rewrite !get_posts_run, Hup, Htable.
    destruct (db_reachable w2);
      [destruct (db_posts w2) eqn:P; [destruct (forallb _ _)|]|];
      cbn; split; congruence.
  - destruct (validate_Post body) as [post|errors]; [|cbn; split; congruence].
    unfold run_handler. rewrite !create_post_run, Hup, Htable.
    destruct (db_reachable w2); [|cbn; split; congruence].
    destruct (_ || _); [cbn; split; congruence|].
    destruct (db_posts w2) as [t|] eqn:P; [|cbn; split; congruence].
    destruct (Sql.insert_post now (username post) (content post) t); cbn; split; congruence.
  - unfold run_handler. rewrite !get_stats_run, Hup, Htable.
    destruct (db_reachable w2); [destruct (db_posts w2) eqn:P|]; cbn; split; congruence.
Qed.

Lemma read_keeps_database (now : datetime) (r : request) (w : world) :
  is_read r = true ->
  db_reachable (snd (serve now r w)) = db_reachable w /\
  db_posts (snd (serve now r w)) = db_posts w.
Proof.
  destruct r as [| |body|]; cbn [serve is_read]; try discriminate; intros _.
  - cbn. auto.
  - unfold run_handler. rewrite get_posts_run.
    destruct (db_reachable w) eqn:R; [destruct (db_posts w) eqn:P; [destruct (forallb _ _)|]|]; cbn; auto.
  - unfold run_handler. rewrite get_stats_run.
    destruct (db_reachable w) eqn:R; [destruct (db_posts w) eqn:P|]; cbn; auto.
Qed.

(** X7. A [GET] request that is answered 200 does not show in anything
    that follows: the next request, whatever it is, gets the answer and
    leaves the database it would have without the read, and the read
    leaves no connection open. *)
Theorem X7_answered_read_is_invisible
    (now1 now2 : datetime) (r1 r2 : request) (w : world) (body : json) :
  is_read r1 = true ->
  fst (serve now1 r1 w) = Success body ->
  let w1 := snd (serve now1 r1 w) in
  fst (serve now2 r2 w1) = fst (serve now2 r2 w) /\
  db_posts (snd (serve now2 r2 w1)) = db_posts (snd (serve now2 r2 w)) /\
  open_connections w1 = open_connections w.
Proof.
  intros Hread Hok w1.
  destruct (read_keeps_database now1 r1 w Hread) as [Hup Htable].
  destruct (serve_depends_on_database now2 r2 w1 w Hup Htable) as [H1 H2].
  split; [exact H1|]. split; [exact H2|].
  pose proof (connection_accounting now1 r1 w) as Hacc.
  unfold open_connections. subst w1.
  destruct r1; try discriminate Hread; cbv zeta in Hacc;
    rewrite ?Hok in Hacc; destruct Hacc as [-> ->]; reflexivity.
Qed.

(** X7 at work: a listing before a post. *)
Lemma X7_answered_read_is_invisible_witness :
  let t0 := mkDatetime 2024 5 17 9 30 0 0 in
  let w := boot fresh_database in
  let r2 := POST_posts (post_body "alice" "hello") in
  (is_read GET_posts = true /\
   fst (serve t0 GET_posts w) = Success (JObj [("posts", JArr [])])) /\
  fst (serve t0 r2 (snd (serve t0 GET_posts w))) = fst (serve t0 r2 w).
Proof.
  intros t0 w r2. split; [split; reflexivity|].
  exact (proj1 (X7_answered_read_is_invisible t0 t0 GET_posts r2 w
                  (JObj [("posts", JArr [])]) eq_refl eq_refl)).
Defined.

(* ===================================================================== *)
(** * Connections over a history *)
(* ===================================================================== *)

Lemma serve_connection_step (now : datetime) (r : request) (w : world) :
  exists k,
    conns_opened (snd (serve now r w)) = (conns_opened w + k)%nat /\
    (conns_closed (snd (serve now r w))
     + (if raised_after_connect (fst (serve now r w)) then 1 else 0))%nat
    = (conns_closed w + k)%nat.
Proof.
  pose proof (connection_accounting now r w) as H. cbv zeta in H.
  destruct r as [| |body|].
  - exists 0%nat. cbn. lia.
  - revert H. destruct (fst (serve now GET_posts w)) as [b|errs|[]];
      intros [-> ->]; cbn [raised_after_connect];
      ((exists 0%nat; lia) || (exists 1%nat; lia)).
  - revert H. destruct (fst (serve now (POST_posts body) w)) as [b|errs|[]];
      intros [-> ->]; cbn [raised_after_connect];
      ((exists 0%nat; lia) || (exists 1%nat; lia)).
  - revert H. destruct (fst (serve now GET_stats w)) as [b|errs|[]];
      intros [-> ->]; cbn [raised_after_connect];
      ((exists 0%nat; lia) || (exists 1%nat; lia)).
Qed.

Lemma run_connection_steps (history : list (datetime * request)) (w : world) :
  exists k,
    conns_opened (snd (run history w)) = (conns_opened w + k)%nat /\
    (conns_closed (snd (run history w))
     + length (filter raised_after_connect (fst (run history w))))%nat
    = (conns_closed w + k)%nat.
Proof.
  revert w; induction history as [|[now r] history IH]; intros w; simpl.
  - exists 0%nat. lia.
  - destruct (serve_connection_step now r w) as (k1 & Ho1 & Hc1).
    destruct (serve now r w) as [resp w1]; cbn [fst snd] in *.
    destruct (IH w1) as (k2 & Ho2 & Hc2).
    destruct (run history w1) as [resps w2]; cbn [fst snd filter] in *.
    exists (k1 + k2)%nat.
    destruct (raised_after_connect resp); cbn [length]; lia.
Qed.

(** X8. Over any history, the connections opened and not closed by the
    handlers grow by one for each request whose handler raised after it
    had connected, and by nothing for any other request: answers 200 and
    422 and failures to connect leave none open. *)
Theorem X8_open_connections_count_failures
    (history : list (datetime * request)) (w : world) :
  (conns_closed w <= conns_opened w)%nat ->
  let resps := fst (run history w) in
  let w' := snd (run history w) in
  open_connections w' =
    (open_connections w + length (filter raised_after_connect resps))%nat /\
  (conns_closed w' <= conns_opened w')%nat.
Proof.
  intros Hle resps w'.
  destruct (run_connection_steps history w) as (k & Ho & Hc).
  fold w' resps in Ho, Hc. unfold open_connections. lia.
Qed.

(** X8 at work: of three requests the second fails in its statement. *)
Lemma X8_open_connections_count_failures_witness :
  let t0 := mkDatetime 2024 5 17 9 30 0 0 in
  let history :=
    [(t0, POST_posts (post_body "alice" "hello"));
     (t0, POST_posts (post_body (Text.replicate 101 "a") "hello"));
     (t0, GET_stats)] in
  let w := boot fresh_database in
  (conns_closed w <= conns_opened w)%nat /\
  open_connections (snd (run history w)) = 1%nat.
Proof.
  intros t0 history w.
  assert (Hle : (conns_closed w <= conns_opened w)%nat) by (vm_compute; lia).
  split; [exact Hle|].
  rewrite (proj1 (X8_open_connections_count_failures history w Hle)).
  vm_compute. reflexivity.
Defined.

(* ===================================================================== *)
(** * Which bodies are accepted *)
(* ===================================================================== *)

Lemma run_handler_never_422 (h : M json) (w : world) (errors : list field_error) :
  fst (run_handler h w) <> ValidationError errors.
Proof.
  unfold run_handler. destruct (h w) as [[b|e] w']; discriminate.
Qed.

Lemma validate_Post_accepts (body : json) (post : Post) :
  validate_Post body = inl post <->
  exists fields,
    body = JObj fields /\
    lookup "username" fields = Some (JStr (username post)) /\
    lookup "content" fields = Some (JStr (content post)).
Proof.
  unfold validate_Post, validate_str. split.
  - destruct body as [| | | | |fields]; try discriminate.
    destruct (lookup "username" fields) as [[| | |u| |]|] eqn:Hu;
      destruct (lookup "content" fields) as [[| | |c| |]|] eqn:Hc;
      try discriminate.
    intros [= <-]. exists fields. cbn [username content]. auto.
  - intros (fields & -> & -> & ->). now destruct post.
Qed.

(** X9. [POST /posts] is answered 422 exactly when the body is not an
    object that gives a string to [username] and a string to [content];
    and when it is such an object, the handler is given those two strings
    as they are, whatever other keys the body carries. *)
Theorem X9_unprocessable_exactly_when_invalid
    (now : datetime) (body : json) (w : world) :
  ((exists errors, fst (serve now (POST_posts body) w) = ValidationError errors) <->
   ~ (exists fields u c,
        body = JObj fields /\
        lookup "username" fields = Some (JStr u) /\
        lookup "content" fields = Some (JStr c))) /\
  (forall fields u c,
      body = JObj fields ->
      lookup "username" fields = Some (JStr u) ->
      lookup "content" fields = Some (JStr c) ->
      serve now (POST_posts body) w = run_handler (create_post now (mkPost u c)) w).
Proof.
  split.
  - cbn [serve]. destruct (validate_Post body) as [post|errors] eqn:Hv.
    + apply validate_Post_accepts in Hv. destruct Hv as (fields & Hb & Hu & Hc).
      split.
      * intros [errors Herr]. exfalso.
        exact (run_handler_never_422 _ _ _ Herr).
      * intros Hnot. exfalso. apply Hnot.
        exists fields, (username post), (content post). auto.
    + split; [|intros _; now exists errors].
      intros _ (fields & u & c & Hb & Hu & Hc).
      assert (Hacc : validate_Post body = inl (mkPost u c)).
      { apply validate_Post_accepts. exists fields. auto. }
      congruence.
  - intros fields u c Hb Hu Hc. cbn [serve].
    assert (Hacc : validate_Post body = inl (mkPost u c)).
    { apply validate_Post_accepts. exists fields. auto. }
    now rewrite Hacc.
Qed.

(* ===================================================================== *)
(** * Ids in the listing *)
(* ===================================================================== *)

Lemma firstn_nodup {A : Type} (n : nat) (l : list A) :
  NoDup l -> NoDup (firstn n l).
Proof.
  intros H. rewrite <- (firstn_skipn n l) in H.
  now apply NoDup_app_remove_r in H.
Qed.

(** X10. In the running service no id shows twice in a listing. *)
Theorem X10_listed_ids_distinct
    (now : datetime) (history : list (datetime * request)) (w : world) :
  db_reachable w = true ->
  db_posts w = None ->
  exists listed,
    fst (serve now GET_posts (snd (run history (boot w)))) =
      Success (JObj [("posts", JArr (map render_post listed))]) /\
    NoDup (map row_id listed).
Proof.
  intros Hup Hnone.
  destruct (started_service history w Hup Hnone)
    as (Hup' & t & Htable & Hsorted & _).
  exists (Sql.select_posts t). split.
  - unfold serve, run_handler. rewrite get_posts_run, Hup', Htable.
    now rewrite (started_service_fetches history w t Hnone Htable).
  - unfold Sql.select_posts. rewrite <- firstn_map. apply firstn_nodup.
    eapply Permutation_NoDup.
    + apply Permutation_map. symmetry. apply order_by_perm.
    + now apply sorted_ids_distinct.
Qed.

(** X10 at work, after two posts. *)
Lemma X10_listed_ids_distinct_witness :
  let t0 := mkDatetime 2024 5 17 9 30 0 0 in
  let history :=
    [(t0, POST_posts (post_body "alice" "hello"));
     (t0, POST_posts (post_body "alice" "hello"))] in
  (db_reachable fresh_database = true /\ db_posts fresh_database = None) /\
  exists listed,
    fst (serve t0 GET_posts (snd (run history (boot fresh_database)))) =
      Success (JObj [("posts", JArr (map render_post listed))]) /\
    NoDup (map row_id listed).
Proof.
  intros t0 history. split; [split; reflexivity|].
  exact (X10_listed_ids_distinct t0 history fresh_database eq_refl eq_refl).
Defined.

(* ===================================================================== *)
(** * Where get_db connects *)
(* ===================================================================== *)

Lemma getenv_setenv_other (name default other value : string) (env : environment) :
  String.eqb name other = false ->
  getenv name default (setenv other value env) = getenv name default env.
Proof. unfold getenv, setenv. now intros ->. Qed.

(** X11. The arguments of [psycopg2.connect] come from four environment
    variables and nothing else: setting any other variable changes none of
    them; setting one of the four changes that argument alone, to the value
    given, the empty string included; and with none of the four set the
    arguments are db, devops_social, postgres and postgres. *)
Theorem X11_connection_arguments (env : environment) :
  (forall name value,
      configures name = false ->
      get_db_args (setenv name value env) = get_db_args env) /\
  (forall value,
      get_db_args (setenv "DB_HOST" value env) =
        mkConnectArgs value (database (get_db_args env))
                      (user (get_db_args env)) (password (get_db_args env)) /\
      get_db_args (setenv "DB_NAME" value env) =
        mkConnectArgs (host (get_db_args env)) value
                      (user (get_db_args env)) (password (get_db_args env)) /\
      get_db_args (setenv "DB_USER" value env) =
        mkConnectArgs (host (get_db_args env)) (database (get_db_args env))
                      value (password (get_db_args env)) /\
      get_db_args (setenv "DB_PASSWORD" value env) =
        mkConnectArgs (host (get_db_args env)) (database (get_db_args env))
                      (user (get_db_args env)) value) /\
  ((forall name, configures name = true -> env name = None) ->
   get_db_args env = mkConnectArgs "db" "devops_social" "postgres" "postgres").
Proof.
  split; [|split].
  - intros name value Hother. unfold configures in Hother.
    apply orb_false_elim in Hother as [Hother Hp].
    apply orb_false_elim in Hother as [Hother Hu].
    apply orb_false_elim in Hother as [Hh Hn].
    unfold get_db_args.
    rewrite !getenv_setenv_other; [reflexivity | | | |];
      rewrite String.eqb_sym; assumption.
  - intros value. repeat split; reflexivity.
  - intros Hunset. unfold get_db_args, getenv.
    rewrite !Hunset; reflexivity.
Qed.
